(** * Pest_finder: the label-to-description pipeline of [app.py]

    A shallow embedding of [src/app.py] and the properties its
    specification states about it.

    The program is a Flask handler that stores an uploaded image, runs
    EasyOCR over it, keeps the text fragments whose confidence clears a
    threshold, and sends them to a hosted generative model.  The libraries
    it calls (EasyOCR, base64, the generative SDK) are external: they are
    Variables of the Section [Pipeline], so every theorem holds for all
    behaviours of these collaborators.  Pydantic's [create_model] is
    modelled over the library's table of names, a [pydantic_library]. *)

From Stdlib Require Import Ascii SpecFloat PrimFloat FloatOps.
From stdpp Require Import base option list strings gmap.

#[local] Set Warnings "-register-all,-inexact-float".

Open Scope string_scope.
Open Scope list_scope.

(** ** Python values *)

(** Python floats are IEEE 754 binary64 numbers; [spec_float] is the
    Standard Library's model of them (zeros, infinities, NaN, finite). *)
Abbreviation float := spec_float (only parsing).

(** [x >= y] on floats: false as soon as one side is NaN. *)
Definition float_ge (x y : float) : bool := SFleb y x.

(** [x <= y] on floats. *)
Definition float_le (x y : float) : bool := SFleb x y.

(** The literal [0.7]: the binary64 number nearest to 7/10. *)
Definition float_0_7 : float := S754_finite false 6305039478318694 (-53).

(** A Python bytes object. *)
Abbreviation bytes := (list Byte.byte) (only parsing).

(** [sep.join(l)]. *)
Definition str_join (sep : string) (l : list string) : string :=
  String.concat sep l.

(** Truth value of a str: non-empty. *)
Definition str_truthy (s : string) : bool :=
  match s with
  | EmptyString => false
  | String _ _ => true
  end.

(** ** EasyOCR results *)

(** [reader.readtext] returns a list of triples
    (bounding box, text, confidence). *)
Definition bbox : Type := list (Z * Z).
Definition detection : Type := bbox * string * float.

Definition det_text (d : detection) : string := snd (fst d).
Definition det_confidence (d : detection) : float := snd d.

(** The list comprehension of [process_image]:
    [[text for _, text, confidence in results
           if confidence >= confidence_threshold]]. *)
Fixpoint extracted_texts (results : list detection)
    (confidence_threshold : float) : list string :=
  match results with
  | [] => []
  | (_, text, confidence) :: results' =>
      if float_ge confidence confidence_threshold
      then text :: extracted_texts results' confidence_threshold
      else extracted_texts results' confidence_threshold
  end.

(** What [process_image] computes from the reader's results:
    [" ".join(extracted_texts)]. *)
Definition filter_and_join (results : list detection)
    (confidence_threshold : float) : string :=
  str_join " " (extracted_texts results confidence_threshold).

(** ** JSON values, as [request.json] and [jsonify] see them *)

Inductive json : Type :=
| JNull
| JBool (b : bool)
| JInt (z : Z)
| JFloat (f : float)
| JStr (s : string)
| JArr (l : list json)
| JObj (m : gmap string json).

(** Python truth value ([not v] is its negation): [None], [False], zero,
    the empty string, the empty list and the empty dict are false. *)
Definition truthy (v : json) : bool :=
  match v with
  | JNull => false
  | JBool b => b
  | JInt z => negb (Z.eqb z 0)
  | JFloat (S754_zero _) => false
  | JFloat _ => true
  | JStr s => str_truthy s
  | JArr l => negb (Nat.eqb (length l) 0)
  | JObj m => negb (Nat.eqb (size m) 0)
  end.

(** [type(v).__name__], used in the messages of AttributeError. *)
Definition type_name (v : json) : string :=
  match v with
  | JNull => "NoneType"
  | JBool _ => "bool"
  | JInt _ => "int"
  | JFloat _ => "float"
  | JStr _ => "str"
  | JArr _ => "list"
  | JObj _ => "dict"
  end.

(** [s.split(sep)] for a one-character separator: the pieces between the
    occurrences of [sep], never an empty list. *)
Fixpoint str_split (sep : ascii) (s : string) : list string :=
  match s with
  | EmptyString => [EmptyString]
  | String c s' =>
      if Ascii.eqb c sep then EmptyString :: str_split sep s'
      else match str_split sep s' with
           | [] => [String c EmptyString]
           | piece :: pieces => String c piece :: pieces
           end
  end.

(** [os.path.join(a, b)] on a POSIX system, for two components. *)
Definition ends_with_slash (a : string) : bool :=
  match String.get (String.length a - 1) a with
  | Some c => Ascii.eqb c "/"%char
  | None => false
  end.

Definition os_path_join (a b : string) : string :=
  if String.prefix "/" b then b
  else if orb (negb (str_truthy a)) (ends_with_slash a) then a +:+ b
  else a +:+ "/" +:+ b.

(** ** Pydantic models built by [create_model] *)

(** Type annotations the program uses: [str], [List[T]] and a model class.
    A model class is its name and its fields in declaration order; a field
    is its annotation and whether it is required. *)
#[local] Unset Elimination Schemes.
Inductive py_type : Type :=
| TStr
| TList (elem : py_type)
| TModel (m : base_model)
with base_model : Type :=
| BaseModel (model_name : string) (model_fields : list (string * field_info))
with field_info : Type :=
| FieldInfo (annotation : py_type) (is_required : bool).
#[local] Set Elimination Schemes.

Definition model_name_of (m : base_model) : string :=
  match m with BaseModel n _ => n end.
Definition model_fields_of (m : base_model) : list (string * field_info) :=
  match m with BaseModel _ fs => fs end.

(** The default of a field definition [(type, default)]: [...] (Ellipsis)
    marks the field required. *)
Inductive field_default : Type :=
| Ellipsis
| DefaultValue (v : json).

Abbreviation field_definition := (py_type * field_default)%type (only parsing).

(** A Python dict with str keys, in insertion order. Assigning to a key
    that is present replaces its value and keeps its position. *)
Fixpoint dict_setitem {V : Type} (d : list (string * V)) (k : string) (v : V)
    : list (string * V) :=
  match d with
  | [] => [(k, v)]
  | (k', v') :: d' =>
      if String.eqb k' k then (k', v) :: d'
      else (k', v') :: dict_setitem d' k v
  end.

(** [{field: (str, ...) for field in field_names}]. *)
Definition listing_field_definitions (field_names : list string)
    : list (string * field_definition) :=
  fold_left (fun d field => dict_setitem d field (TStr, Ellipsis)) field_names [].

(** ** Responses of the generative SDK *)

Record part : Type := Part { part_text : string }.
Record content : Type := Content { content_parts : list part }.
Record candidate : Type := Candidate { candidate_content : content }.
Record generate_content_response : Type :=
  GenerateContentResponse { candidates : list candidate }.

(** The [generation_config] dict passed to [genai.GenerativeModel]. *)
Record generation_config : Type := GenerationConfig {
  response_mime_type : string;
  response_schema : base_model
}.

(** ** Exceptions, effects and the world *)

(** Instances of Python's [Exception] class, with their message. *)
Inductive py_exception : Type :=
| IndexError (msg : string)
| AttributeError (msg : string)
| FileNotFoundError (msg : string)
| OtherException (cls msg : string).

Definition exc_str (e : py_exception) : string :=
  match e with
  | IndexError msg | AttributeError msg | FileNotFoundError msg => msg
  | OtherException _ msg => msg
  end.

Inductive outcome (A : Type) : Type :=
| Return (a : A)
| Raise (e : py_exception).
Arguments Return {A} a.
Arguments Raise {A} e.

(** ** Pydantic's [create_model] and the schema builder *)

(** What [create_model] does with a keyword argument depends on its name:
    it becomes a field of the model; or it is no field at all (a name with a
    leading underscore is a private attribute, some names are parameters of
    [create_model] itself); or the call is refused with an exception. *)
Inductive keyword_kind : Type :=
| PlainField
| NotAField
| Refused.

(** The library is not part of the program: its table of names, and the
    exception it raises for a set of keywords it refuses, are taken as
    given. *)
Record pydantic_library : Type := PydanticLibrary {
  kind_of : string -> keyword_kind;
  refusal : list (string * field_definition) -> py_exception
}.

Definition is_refused (k : keyword_kind) : bool :=
  match k with Refused => true | _ => false end.

Definition is_plain (k : keyword_kind) : bool :=
  match k with PlainField => true | _ => false end.

(** The field a definition [(type, default)] declares: required exactly
    when the default is Ellipsis. *)
Definition field_of (kw : string * field_definition) : string * field_info :=
  let '(field, (ty, dflt)) := kw in
  (field, FieldInfo ty match dflt with Ellipsis => true | DefaultValue _ => false end).

Section SchemaBuilder.

Variable lib : pydantic_library.

(** [create_model(name, **field_definitions)]: refused as soon as one
    keyword is; otherwise one field per keyword that is a plain field name,
    in the order of the keywords. *)
Definition create_model (name : string)
    (field_definitions : list (string * field_definition)) : outcome base_model :=
  if existsb (fun kw => is_refused (kind_of lib (fst kw))) field_definitions
  then Raise (refusal lib field_definitions)
  else Return (BaseModel name
                 (map field_of
                    (List.filter (fun kw => is_plain (kind_of lib (fst kw)))
                       field_definitions))).

Definition create_dynamic_listing_model (field_names : list string)
    : outcome base_model :=
  create_model "DynamicListingModel" (listing_field_definitions field_names).

Definition create_listings_container_model (listing_model : base_model)
    : outcome base_model :=
  create_model "DynamicListingsContainer"
    [("listings", (TList (TModel listing_model), Ellipsis))].

End SchemaBuilder.

(** Pydantic's [is_valid_field_name]: a field name does not start with
    an underscore. *)
Definition is_valid_field_name (name : string) : bool :=
  negb (String.prefix "_" name).

(** Keywords that make the call fail when given a field definition: the
    parameters [__base__], [__validators__] and [__cls_kwargs__] of
    [create_model], [model_config], and the members of [BaseModel] in its
    protected namespace [model_]. *)
Definition refused_names : list string :=
  ["__base__"; "__validators__"; "__cls_kwargs__"; "model_config";
   "model_fields"; "model_computed_fields"; "model_extra"; "model_fields_set";
   "model_construct"; "model_copy"; "model_dump"; "model_dump_json";
   "model_json_schema"; "model_parametrized_name"; "model_post_init";
   "model_rebuild"; "model_validate"; "model_validate_json";
   "model_validate_strings"].

(** The library the handler runs against (pydantic 2).  Of this table the
    handler only consults the rows of the four names it passes, all plain
    field names; the theorems on the schema builder are stated for every
    library. *)
Definition pydantic : pydantic_library :=
  {| kind_of name :=
       if existsb (String.eqb name) refused_names then Refused
       else if is_valid_field_name name then PlainField
       else NotAField;
     refusal _ := OtherException "TypeError" "create_model" |}.

(** What a request does to the outside, in order. *)
Inductive event : Type :=
| EvWrite (path : string) (data : bytes)
| EvRemove (path : string)
| EvReadtext (lang_list : list string) (path : string)
| EvGenerateContent (model : string) (config : generation_config) (prompt : string)
| EvPrint (line : string).

(** The files on disk and the events so far. *)
Record world : Type := World {
  fs : gmap string bytes;
  trace : list event
}.

(** Computations that read and change the world and may raise. An
    exception keeps the changes made before it was raised. *)
Definition M (A : Type) : Type := world -> outcome A * world.

Definition m_ret {A : Type} (a : A) : M A := fun w => (Return a, w).

Definition m_bind {A B : Type} (c : M A) (k : A -> M B) : M B :=
  fun w =>
    match c w with
    | (Return a, w') => k a w'
    | (Raise e, w') => (Raise e, w')
    end.

Definition m_raise {A : Type} (e : py_exception) : M A := fun w => (Raise e, w).

(** [try: body  except Exception as e: handler e]. *)
Definition try_except {A : Type} (body : M A) (handler : py_exception -> M A) : M A :=
  fun w =>
    match body w with
    | (Return a, w') => (Return a, w')
    | (Raise e, w') => handler e w'
    end.

Definition lift_outcome {A : Type} (o : outcome A) : M A := fun w => (o, w).

Definition emit (e : event) : M unit :=
  fun w => (Return tt, {| fs := fs w; trace := trace w ++ [e] |}).

Notation "x <- c ;; k" := (m_bind c (fun x => k))
  (at level 100, c at next level, right associativity).

(** [l[i]]. *)
Definition getitem {A : Type} (l : list A) (i : nat) : M A :=
  match l !! i with
  | Some x => m_ret x
  | None => m_raise (IndexError "list index out of range")
  end.

Definition print (line : string) : M unit := emit (EvPrint line).

(** [with open(path, 'wb') as f: f.write(data)]: the file is created or
    truncated, then holds [data]. *)
Definition write_file (path : string) (data : bytes) : M unit :=
  fun w => (Return tt, {| fs := <[path := data]> (fs w);
                          trace := trace w ++ [EvWrite path data] |}).

(** [os.remove(path)]. *)
Definition os_remove (path : string) : M unit :=
  fun w =>
    match fs w !! path with
    | Some _ => (Return tt, {| fs := delete path (fs w);
                               trace := trace w ++ [EvRemove path] |})
    | None => (Raise (FileNotFoundError
                 ("[Errno 2] No such file or directory: '" +:+ path +:+ "'")), w)
    end.

(** [obj.get(key)]: the value, [None] for a missing key; only dicts have
    the method. *)
Definition py_get (obj : json) (key : string) : M json :=
  match obj with
  | JObj m => m_ret (default JNull (m !! key))
  | _ => m_raise (AttributeError
           ("'" +:+ type_name obj +:+ "' object has no attribute 'get'"))
  end.

(** [obj.split(sep)]: only str has the method among JSON values. *)
Definition py_split (obj : json) (sep : ascii) : M (list string) :=
  match obj with
  | JStr s => m_ret (str_split sep s)
  | _ => m_raise (AttributeError
           ("'" +:+ type_name obj +:+ "' object has no attribute 'split'"))
  end.

(** ** The Flask side *)

Record flask_request : Type := FlaskRequest {
  method : string;
  request_json : json
}.

Inductive flask_response : Type :=
| JsonResponse (body : json) (status : Z)
| TemplateResponse (template : string) (status : Z).

Definition UPLOAD_FOLDER : string := "uploaded_images".

Definition default_lang_list : list string := ["en"; "te"].
Definition default_confidence_threshold : float := float_0_7.

Definition system_message : string :=
  "Act as an agriculture expert. Provide all details about the product "
  +:+ "including its uses, chemical composition, and benefits. "
  +:+ "Here is the product information: ".

(** ** The pipeline of [app.py] *)

Section Pipeline.

(** The external collaborators.  [b64decode] is [base64.b64decode];
    [easyocr_readtext lang_list path files] is
    [easyocr.Reader(lang_list).readtext(path)] on the files on disk;
    [generate_content name config prompt] is
    [genai.GenerativeModel(name, generation_config=config)
       .generate_content(prompt)];
    [response_repr] is [str] of a response, as [print] shows it. *)
Variable b64decode : string -> outcome bytes.
Variable easyocr_readtext :
  list string -> string -> gmap string bytes -> outcome (list detection).
Variable generate_content :
  string -> generation_config -> string -> outcome generate_content_response.
Variable response_repr : generate_content_response -> string.

Definition call_b64decode (s : string) : M bytes := lift_outcome (b64decode s).

Definition call_readtext (lang_list : list string) (image_path : string)
    : M (list detection) :=
  fun w =>
    (easyocr_readtext lang_list image_path (fs w),
     {| fs := fs w; trace := trace w ++ [EvReadtext lang_list image_path] |}).

Definition call_generate_content (name : string) (config : generation_config)
    (prompt : string) : M generate_content_response :=
  fun w =>
    (generate_content name config prompt,
     {| fs := fs w; trace := trace w ++ [EvGenerateContent name config prompt] |}).

Definition process_image (image_path : string) (lang_list : list string)
    (confidence_threshold : float) : M string :=
  results <- call_readtext lang_list image_path ;;
  let extracted_texts := extracted_texts results confidence_threshold in
  m_ret (str_join " " extracted_texts).

(** The response object itself is always true; the test is on its
    candidates and on the parts of the first one.  When the test fails
    the function falls off its end and returns [None]. *)
Definition gemini_generate_response (prompt : string)
    (container_model : base_model) : M (option string) :=
  try_except
    (response <- call_generate_content "gemini-1.5-flash"
                   {| response_mime_type := "application/json";
                      response_schema := container_model |} prompt ;;
     _ <- print (response_repr response) ;;
     match candidates response with
     | [] => m_ret None
     | _ :: _ =>
         first <- getitem (candidates response) 0 ;;
         match content_parts (candidate_content first) with
         | [] => m_ret None
         | _ :: _ =>
             first <- getitem (candidates response) 0 ;;
             p <- getitem (content_parts (candidate_content first)) 0 ;;
             m_ret (Some (part_text p))
         end
     end)
    (fun e =>
       _ <- print ("Error with Gemini API: " +:+ exc_str e) ;;
       m_ret None).

Definition image_path : string := os_path_join UPLOAD_FOLDER "captured_image.jpg".

Definition fields : list string :=
  ["Product Name"; "Description"; "Usage Instructions"].

(** [jsonify] of [None] or of a str. *)
Definition json_of_option (o : option string) : json :=
  match o with
  | None => JNull
  | Some s => JStr s
  end.

Definition index (request : flask_request) : M flask_response :=
  if String.eqb (method request) "POST" then
    data_url <- py_get (request_json request) "image" ;;
    if negb (truthy data_url) then
      m_ret (JsonResponse (JObj {[ "error" := JStr "No image data provided" ]}) 400)
    else
      pieces <- py_split data_url "," ;;
      payload <- getitem pieces 1 ;;
      image_data <- call_b64decode payload ;;
      _ <- write_file image_path image_data ;;
      extracted_text <-
        process_image image_path default_lang_list default_confidence_threshold ;;
      if negb (str_truthy extracted_text) then
        m_ret (JsonResponse
                 (JObj {[ "error" := JStr "No text extracted from the image" ]}) 400)
      else
        listing_model <- lift_outcome (create_dynamic_listing_model pydantic fields) ;;
        container_model <-
          lift_outcome (create_listings_container_model pydantic listing_model) ;;
        let prompt := system_message +:+ extracted_text in
        response <- gemini_generate_response prompt container_model ;;
        _ <- os_remove image_path ;;
        m_ret (JsonResponse
                 (JObj (<[ "extracted_text" := JStr extracted_text ]>
                          {[ "gemini_response" := json_of_option response ]})) 200)
  else
    m_ret (TemplateResponse "index.html" 200).

End Pipeline.

(** ** The specification's vocabulary *)

(** The fragments the specification keeps at threshold [t]: those whose
    confidence is at least [t], in the engine's order. *)
Definition retained (t : float) (results : list detection) : list detection :=
  List.filter (fun d => float_ge (det_confidence d) t) results.

(** The text payload of the first content part of the first candidate of a
    generative outcome, when there is one. *)
Definition first_part_text (o : outcome generate_content_response) : option string :=
  match o with
  | Raise _ => None
  | Return response =>
      match candidates response with
      | [] => None
      | first :: _ =>
          match content_parts (candidate_content first) with
          | [] => None
          | p :: _ => Some (part_text p)
          end
      end
  end.

(** Whether character [c] occurs in [s]. *)
Fixpoint str_mem (c : ascii) (s : string) : bool :=
  match s with
  | EmptyString => false
  | String c' s' => orb (Ascii.eqb c' c) (str_mem c s')
  end.

(** Everything that follows the first occurrence of [c] in [s]. *)
Fixpoint after_first (c : ascii) (s : string) : option string :=
  match s with
  | EmptyString => None
  | String c' s' => if Ascii.eqb c' c then Some s' else after_first c s'
  end.

(** The base64 alphabet with its padding character. *)
Definition is_base64_char (c : ascii) : bool :=
  let n := nat_of_ascii c in
  orb (andb (Nat.leb 65 n) (Nat.leb n 90))
    (orb (andb (Nat.leb 97 n) (Nat.leb n 122))
       (orb (andb (Nat.leb 48 n) (Nat.leb n 57))
          (orb (Nat.eqb n 43) (orb (Nat.eqb n 47) (Nat.eqb n 61))))).

Fixpoint str_forall (P : ascii -> bool) (s : string) : bool :=
  match s with
  | EmptyString => true
  | String c s' => andb (P c) (str_forall P s')
  end.

(** A data URL [data:<mime>;base64,<payload>]: the media type holds no
    comma and the payload is base64 text. *)
Definition data_url_formatted (s mime payload : string) : Prop :=
  s = "data:" +:+ mime +:+ ";base64," +:+ payload
  /\ str_mem "," mime = false
  /\ str_forall is_base64_char payload = true.

(** The configuration, schema and prompt [index] hands to the generative
    adapter for an extracted text. *)
Definition config_of (container_model : base_model) : generation_config :=
  {| response_mime_type := "application/json"; response_schema := container_model |}.

Definition listing_schema : base_model :=
  BaseModel "DynamicListingModel"
    [("Product Name", FieldInfo TStr true);
     ("Description", FieldInfo TStr true);
     ("Usage Instructions", FieldInfo TStr true)].

Definition container_schema : base_model :=
  BaseModel "DynamicListingsContainer"
    [("listings", FieldInfo (TList (TModel listing_schema)) true)].

Definition prompt_of (extracted_text : string) : string :=
  system_message +:+ extracted_text.

(** The line the generative adapter prints: the raw response, or the
    error it caught. *)
Definition gemini_print_line (response_repr : generate_content_response -> string)
    (o : outcome generate_content_response) : string :=
  match o with
  | Return response => response_repr response
  | Raise e => "Error with Gemini API: " +:+ exc_str e
  end.

(** The two documented error bodies and the success body. *)
Definition no_image_body : json :=
  JObj {[ "error" := JStr "No image data provided" ]}.

Definition no_text_body : json :=
  JObj {[ "error" := JStr "No text extracted from the image" ]}.

Definition success_body (extracted_text : string) (response : option string) : json :=
  JObj (<[ "extracted_text" := JStr extracted_text ]>
          {[ "gemini_response" := json_of_option response ]}).

(** Whether an effect writes a file. *)
Definition is_write (ev : event) : bool :=
  match ev with
  | EvWrite _ _ => true
  | _ => false
  end.

(** ** Stand-ins for the collaborators

    Worked examples run the handler against fixed collaborators: a decoder
    that knows one payload, an OCR engine that returns a fixed list for an
    existing file, and a generative model with a fixed outcome. *)

Definition label_payload : string := "aGk=".
Definition label_bytes : bytes := [Byte.x68; Byte.x69].
Definition label_data_url : string := "data:image/jpeg;base64,aGk=".

Definition stub_b64decode (s : string) : outcome bytes :=
  if String.eqb s label_payload then Return label_bytes
  else Raise (OtherException "binascii.Error" "Incorrect padding").

Definition label_results : list detection :=
  [([], "NPK Fertilizer", Prim2SF 0.95%float);
   ([], "smudge", Prim2SF 0.31%float);
   ([], "19:19:19", Prim2SF 0.88%float)].

Definition blurred_results : list detection :=
  [([], "smudge", Prim2SF 0.31%float); ([], "blot", S754_nan)].

Definition stub_readtext (results : list detection)
    (lang_list : list string) (path : string) (files : gmap string bytes)
    : outcome (list detection) :=
  match files !! path with
  | Some _ => Return results
  | None => Raise (FileNotFoundError path)
  end.

Definition stub_generate (o : outcome generate_content_response)
    (name : string) (config : generation_config) (prompt : string)
    : outcome generate_content_response := o.

Definition listing_response : generate_content_response :=
  {| candidates := [Candidate (Content [Part "{listings: []}"; Part "more"])] |}.

Definition quota_error : py_exception :=
  OtherException "ResourceExhausted" "429 quota exceeded".

Definition stub_repr (response : generate_content_response) : string := "response".

Definition post_label : flask_request :=
  {| method := "POST"; request_json := JObj {[ "image" := JStr label_data_url ]} |}.

Definition post_nothing : flask_request :=
  {| method := "POST"; request_json := JObj {[ "name" := JStr "label" ]} |}.

Definition empty_world : world := {| fs := ∅; trace := [] |}.

(** Further stand-ins: an OCR engine that fails, one that reads the label
    only from the label's bytes, a decoder that knows a second payload, and
    requests with other bodies. *)

Definition ocr_error : py_exception :=
  OtherException "RuntimeError" "could not load the recognition model".

Definition failing_readtext (lang_list : list string) (path : string)
    (files : gmap string bytes) : outcome (list detection) :=
  Raise ocr_error.

Definition blank_payload : string := "eA==".
Definition blank_bytes : bytes := [Byte.x78].
Definition blank_data_url : string := "data:image/jpeg;base64,eA==".

Definition stub_b64decode2 (s : string) : outcome bytes :=
  if String.eqb s label_payload then Return label_bytes
  else if String.eqb s blank_payload then Return blank_bytes
  else Raise (OtherException "binascii.Error" "Incorrect padding").

Definition content_readtext (lang_list : list string) (path : string)
    (files : gmap string bytes) : outcome (list detection) :=
  match files !! path with
  | Some [Byte.x68; Byte.x69] => Return label_results
  | Some _ => Return blurred_results
  | None => Raise (FileNotFoundError path)
  end.

Definition post_image (v : json) : flask_request :=
  {| method := "POST"; request_json := JObj {[ "image" := v ]} |}.

Definition other_file_world : world :=
  {| fs := {[ "notes.txt" := [Byte.x6e] ]}; trace := [] |}.

(** * Properties *)

(** ** Order on floats *)

(** The literal [0.7] of the source denotes [float_0_7]. *)
Example float_0_7_literal : Prim2SF 0.7%float = float_0_7.
Proof. reflexivity. Qed.

Ltac cmp_cases :=
  repeat match goal with
  | |- context [Z.compare ?x ?y] => destruct (Z.compare_spec x y)
  | |- context [Pos.compare_cont Eq ?x ?y] =>
      change (Pos.compare_cont Eq x y) with (Pos.compare x y);
      destruct (Pos.compare_spec x y)
  end.

(** [<=] on floats is transitive, NaN included (it is below nothing). *)
Lemma SFleb_trans (a b c : float) :
  SFleb a b = true -> SFleb b c = true -> SFleb a c = true.
Proof.
  unfold SFleb, SFcompare.
  destruct a as [sa|sa| |sa ma ea], b as [sb|sb| |sb mb eb],
    c as [sc|sc| |sc mc ec];
    try destruct sa; try destruct sb; try destruct sc;
    simpl; try congruence;
    cmp_cases; simpl; intros; subst; try congruence; try lia.
Qed.

Lemma float_ge_weaken (c t1 t2 : float) :
  float_le t1 t2 = true -> float_ge c t2 = true -> float_ge c t1 = true.
Proof. unfold float_le, float_ge. apply SFleb_trans. Qed.

(** ** Text extraction *)

Lemma extracted_texts_retained (results : list detection) (t : float) :
  extracted_texts results t = map det_text (retained t results).
Proof.
  induction results as [|[[box text] confidence] results IH]; simpl; [done|].
  unfold det_confidence; simpl.
  destruct (float_ge confidence t); simpl; by rewrite IH.
Qed.

Lemma retained_app (t : float) (l1 l2 : list detection) :
  retained t (l1 ++ l2) = retained t l1 ++ retained t l2.
Proof. apply List.filter_app. Qed.

Lemma retained_drop_below (t : float) (before after : list detection) (d : detection) :
  float_ge (det_confidence d) t = false ->
  retained t (before ++ d :: after) = retained t (before ++ after).
Proof.
  intros Hd. rewrite !retained_app. simpl. by rewrite Hd.
Qed.

Lemma process_image_run
    (rt : list string -> string -> gmap string bytes -> outcome (list detection))
    (path : string) (langs : list string) (t : float) (w : world)
    (results : list detection) :
  rt langs path (fs w) = Return results ->
  process_image rt path langs t w =
    (Return (str_join " " (extracted_texts results t)),
     {| fs := fs w; trace := trace w ++ [EvReadtext langs path] |}).
Proof.
  intros Hrt. unfold process_image, m_bind, call_readtext, m_ret. by rewrite Hrt.
Qed.

(** C1: whatever fragments the OCR engine returns and whatever the
    threshold [t], [process_image] returns the texts of the fragments with
    confidence [>= t], in the engine's order, joined by single spaces; a
    fragment below [t] can be dropped from the input without changing the
    output. *)
Theorem process_image_keeps_confident_fragments
    (rt : list string -> string -> gmap string bytes -> outcome (list detection))
    (path : string) (langs : list string) (t : float) (w : world)
    (results : list detection) :
  rt langs path (fs w) = Return results ->
  fst (process_image rt path langs t w) =
    Return (String.concat " " (map det_text (retained t results)))
  /\ (forall before d after,
        results = before ++ d :: after ->
        float_ge (det_confidence d) t = false ->
        fst (process_image rt path langs t w) =
          Return (String.concat " " (map det_text (retained t (before ++ after))))).
Proof.
  intros Hrt. rewrite (process_image_run _ _ _ _ _ _ Hrt). simpl.
  unfold str_join. rewrite extracted_texts_retained. split; [done|].
  intros before d after -> Hd. by rewrite retained_drop_below.
Qed.

(** C6: for thresholds [t1 <= t2], what [process_image] retains at [t2]
    is retained at [t1]: the texts kept at [t2] are a sublist of the texts
    kept at [t1], and every fragment kept at [t2] is kept at [t1]. *)
Theorem raising_threshold_never_adds (results : list detection) (t1 t2 : float) :
  float_le t1 t2 = true ->
  extracted_texts results t2 `sublist_of` extracted_texts results t1
  /\ (forall d, d ∈ retained t2 results -> d ∈ retained t1 results).
Proof.
  intros Hle. split.
  - induction results as [|[[box text] confidence] results IH]; simpl; [done|].
    destruct (float_ge confidence t2) eqn:H2.
    + rewrite (float_ge_weaken _ _ _ Hle H2). by apply sublist_skip.
    + destruct (float_ge confidence t1); [by apply sublist_cons | done].
  - intros d. unfold retained. rewrite !list_elem_of_In, !List.filter_In.
    intros [Hin H2]. split; [done|]. by apply (float_ge_weaken _ _ _ Hle).
Qed.

(** ** Schema builder *)

Section Dict.
Context {V : Type}.
Implicit Types (d : list (string * V)) (k : string) (v : V).

Lemma dict_setitem_keys_in d k v k' :
  In k' (map fst (dict_setitem d k v)) <-> In k' (map fst d) \/ k' = k.
Proof.
  induction d as [|[k0 v0] d IH]; simpl.
  - intuition.
  - destruct (String.eqb_spec k0 k) as [->|Hne]; simpl.
    + intuition.
    + rewrite IH. intuition.
Qed.

Lemma dict_setitem_keys_NoDup d k v :
  List.NoDup (map fst d) -> List.NoDup (map fst (dict_setitem d k v)).
Proof.
  induction d as [|[k0 v0] d IH]; simpl; intros Hnd.
  - constructor; [intros [] | constructor].
  - inversion Hnd as [|? ? Hnotin Hnd']; subst.
    destruct (String.eqb_spec k0 k) as [->|Hne]; simpl.
    + by constructor.
    + constructor; [|by apply IH].
      rewrite dict_setitem_keys_in. intros [Hin | ->]; [by apply Hnotin | done].
Qed.

Lemma dict_setitem_values d k v (P : V -> Prop) :
  P v -> Forall (fun kv => P (snd kv)) d ->
  Forall (fun kv => P (snd kv)) (dict_setitem d k v).
Proof.
  intros Hv. induction d as [|[k0 v0] d IH]; simpl; intros Hd.
  - by constructor.
  - inversion Hd; subst. destruct (String.eqb k0 k); constructor; auto.
Qed.

Lemma dict_setitem_fresh d k v :
  ~ In k (map fst d) -> dict_setitem d k v = d ++ [(k, v)].
Proof.
  induction d as [|[k0 v0] d IH]; simpl; intros Hnotin; [done|].
  destruct (String.eqb_spec k0 k) as [->|Hne]; [tauto|].
  f_equal. apply IH. tauto.
Qed.
End Dict.

Lemma listing_defs_invariant (names : list string) (d : list (string * field_definition)) :
  let d' := fold_left (fun d field => dict_setitem d field (TStr, Ellipsis)) names d in
  (forall k, In k (map fst d') <-> In k (map fst d) \/ In k names)
  /\ (List.NoDup (map fst d) -> List.NoDup (map fst d'))
  /\ (Forall (fun kv => snd kv = (TStr, Ellipsis)) d ->
      Forall (fun kv => snd kv = (TStr, Ellipsis)) d')
  /\ (List.NoDup names -> (forall k, In k names -> ~ In k (map fst d)) ->
      map fst d' = map fst d ++ names).
Proof.
  cbv zeta. revert d. induction names as [|n names IH]; intros d; simpl.
  - repeat split; try tauto. intros _ _. by rewrite app_nil_r.
  - destruct (IH (dict_setitem d n (TStr, Ellipsis))) as (Hin & Hnd & Hval & Hord).
    repeat split.
    + intros Hk. apply Hin in Hk. rewrite dict_setitem_keys_in in Hk. intuition.
    + intros Hk. apply Hin. rewrite dict_setitem_keys_in. intuition.
    + intros H. by apply Hnd, dict_setitem_keys_NoDup.
    + intros H. apply Hval. by apply (dict_setitem_values d n _ (fun v => v = (TStr, Ellipsis))).
    + intros Hnames Hfresh. inversion Hnames as [|? ? Hn Hnames']; subst.
      rewrite Hord; [|done|].
      * rewrite dict_setitem_fresh by (apply Hfresh; by left).
        rewrite map_app. simpl. by rewrite <- app_assoc.
      * intros k Hk. rewrite dict_setitem_keys_in. intros [Hd | ->].
        -- apply (Hfresh k); [by right | done].
        -- done.
Qed.

Lemma create_model_plain (lib : pydantic_library) (name : string)
    (kwargs : list (string * field_definition)) :
  Forall (fun kw => kind_of lib (fst kw) = PlainField) kwargs ->
  create_model lib name kwargs = Return (BaseModel name (map field_of kwargs)).
Proof.
  intros Hplain. unfold create_model.
  replace (existsb (fun kw => is_refused (kind_of lib (fst kw))) kwargs) with false.
  - do 3 f_equal. induction Hplain as [|kw kwargs Hkw _ IH]; simpl; [done|].
    by rewrite Hkw, IH.
  - induction Hplain as [|kw kwargs Hkw _ IH]; simpl; [done|].
    by rewrite Hkw, <- IH.
Qed.

Lemma listing_definitions_shape (names : list string) :
  listing_field_definitions names =
    map (fun k => (k, (TStr, Ellipsis))) (map fst (listing_field_definitions names)).
Proof.
  destruct (listing_defs_invariant names []) as (_ & _ & Hval & _).
  specialize (Hval (List.Forall_nil _)).
  fold (listing_field_definitions names) in Hval.
  induction Hval as [|[k v] l Hkv Hl IH]; simpl; [done|].
  simpl in Hkv. subst v. by rewrite <- IH.
Qed.

Lemma listing_model_fields (lib : pydantic_library) (names : list string) :
  Forall (fun n => kind_of lib n = PlainField) names ->
  create_dynamic_listing_model lib names =
    Return (BaseModel "DynamicListingModel"
              (map (fun k => (k, FieldInfo TStr true))
                 (map fst (listing_field_definitions names)))).
Proof.
  intros Hplain. unfold create_dynamic_listing_model.
  destruct (listing_defs_invariant names []) as (Hin & _ & _ & _).
  fold (listing_field_definitions names) in Hin. simpl in Hin.
  rewrite create_model_plain.
  - do 2 f_equal. rewrite listing_definitions_shape at 1. by rewrite map_map.
  - apply List.Forall_forall. intros [k v] Hkv. simpl.
    rewrite List.Forall_forall in Hplain. apply Hplain.
    assert (Hk : In k (map fst (listing_field_definitions names))).
    { change k with (fst (k, v)). by apply in_map. }
    apply Hin in Hk. tauto.
Qed.

Lemma filter_unique_key (keys : list string) (k : string) (v : field_info) :
  List.NoDup keys -> In k keys ->
  List.filter (fun f : string * field_info => String.eqb (fst f) k)
    (map (fun k => (k, v)) keys) = [(k, v)].
Proof.
  induction keys as [|k0 keys IH]; simpl; intros Hnd Hin; [done|].
  inversion Hnd as [|? ? Hnotin Hnd']; subst.
  destruct (String.eqb_spec k0 k) as [->|Hne].
  - f_equal. clear IH Hin Hnd Hnd'.
    induction keys as [|k1 keys IH]; simpl; [done|].
    destruct (String.eqb_spec k1 k) as [->|Hne]; [simpl in Hnotin; tauto|].
    apply IH. simpl in Hnotin. tauto.
  - apply IH; [done|]. destruct Hin; [done|done].
Qed.

(** C5, as amended: for every non-empty sequence of field names that
    the library takes as plain field names, [create_dynamic_listing_model]
    returns a record schema with exactly one field per name, a required str,
    and no other field; when the names are distinct its fields are the names
    in their order; and, [listings] being a plain field name,
    [create_listings_container_model] returns a schema with the single
    required field [listings], a list of that record schema. *)
Theorem schema_builder_one_required_str_per_name (lib : pydantic_library)
    (field_names : list string) :
  field_names <> [] ->
  Forall (fun name => kind_of lib name = PlainField) field_names ->
  kind_of lib "listings" = PlainField ->
  exists listing,
    create_dynamic_listing_model lib field_names = Return listing
    /\ (forall name, In name field_names ->
          List.filter (fun f => String.eqb (fst f) name) (model_fields_of listing) =
            [(name, FieldInfo TStr true)])
    /\ (forall f, In f (model_fields_of listing) ->
          In (fst f) field_names /\ snd f = FieldInfo TStr true)
    /\ (List.NoDup field_names -> map fst (model_fields_of listing) = field_names)
    /\ create_listings_container_model lib listing =
         Return (BaseModel "DynamicListingsContainer"
                   [("listings", FieldInfo (TList (TModel listing)) true)]).
Proof.
  intros _ Hplain Hlistings. eexists. split; [by apply listing_model_fields|].
  cbn [model_fields_of].
  destruct (listing_defs_invariant field_names []) as (Hin & Hnd & _ & Hord).
  fold (listing_field_definitions field_names) in Hin, Hnd, Hord.
  simpl in Hin, Hnd, Hord.
  split; [|split; [|split]].
  - intros name Hname. apply filter_unique_key.
    + apply Hnd. constructor.
    + apply Hin. by right.
  - intros f Hf. apply in_map_iff in Hf as (k & <- & Hk). simpl.
    apply Hin in Hk. tauto.
  - intros Hnames. rewrite map_map. simpl. rewrite map_id. apply Hord; [done|tauto].
  - unfold create_listings_container_model. rewrite create_model_plain; [done|].
    by repeat constructor.
Qed.

(** C5, as first stated, fails on a name with a leading underscore:
    pydantic makes it a private attribute, so the record schema built for
    [_hidden] has no field at all, not one required str field. *)
Lemma underscore_name_gives_no_field :
  create_dynamic_listing_model pydantic ["_hidden"] =
    Return (BaseModel "DynamicListingModel" [])
  /\ ~ (exists listing,
          create_dynamic_listing_model pydantic ["_hidden"] = Return listing
          /\ List.filter (fun f => String.eqb (fst f) "_hidden")
               (model_fields_of listing) = [("_hidden", FieldInfo TStr true)]).
Proof.
  split; [reflexivity|].
  intros (listing & Hbuilt & Hfield).
  vm_compute in Hbuilt. injection Hbuilt as <-. discriminate Hfield.
Qed.

(** The schemas the handler builds from its fixed field list. *)
Lemma listing_schema_built :
  create_dynamic_listing_model pydantic fields = Return listing_schema.
Proof. reflexivity. Qed.

Lemma container_schema_built :
  create_listings_container_model pydantic listing_schema = Return container_schema.
Proof. reflexivity. Qed.

(** ** Splitting at commas *)

Lemma str_split_no_sep (sep : ascii) (s : string) :
  str_mem sep s = false -> str_split sep s = [s].
Proof.
  induction s as [|c s IH]; simpl; [done|].
  destruct (Ascii.eqb c sep); simpl; [done|].
  intros Hs. by rewrite (IH Hs).
Qed.

Lemma str_split_at_first (sep : ascii) (before rest : string) :
  str_mem sep before = false ->
  str_split sep (before +:+ String sep rest) = before :: str_split sep rest.
Proof.
  induction before as [|c before IH]; simpl.
  - by rewrite Ascii.eqb_refl.
  - destruct (Ascii.eqb c sep); simpl; [done|].
    intros Hb. by rewrite (IH Hb).
Qed.

Lemma after_first_at_first (sep : ascii) (before rest : string) :
  str_mem sep before = false ->
  after_first sep (before +:+ String sep rest) = Some rest.
Proof.
  induction before as [|c before IH]; simpl.
  - by rewrite Ascii.eqb_refl.
  - destruct (Ascii.eqb c sep); simpl; [done|]. apply IH.
Qed.

Lemma str_split_second_of_mem (sep : ascii) (s : string) :
  str_mem sep s = true -> exists piece, str_split sep s !! 1%nat = Some piece.
Proof.
  induction s as [|c s IH]; simpl; [done|].
  destruct (Ascii.eqb c sep); simpl.
  - intros _. destruct s as [|c' s]; simpl; [by eexists|].
    destruct (Ascii.eqb c' sep); [by eexists|].
    destruct (str_split sep s); by eexists.
  - intros Hs. destruct (IH Hs) as [piece Hpiece].
    destruct (str_split sep s) as [|p ps]; [done|]. by exists piece.
Qed.

Lemma str_split_second_truthy (sep : ascii) (s piece : string) :
  str_split sep s !! 1%nat = Some piece -> str_truthy s = true.
Proof. by destruct s. Qed.

Lemma base64_no_comma (payload : string) :
  str_forall is_base64_char payload = true -> str_mem "," payload = false.
Proof.
  induction payload as [|c payload IH]; simpl; [done|].
  intros [Hc Hp]%andb_prop. rewrite (IH Hp), orb_false_r.
  destruct (Ascii.eqb_spec c ","%char) as [->|Hne]; [|done].
  vm_compute in Hc. discriminate Hc.
Qed.

Lemma str_append_assoc (a b c : string) : (a +:+ b) +:+ c = a +:+ (b +:+ c).
Proof.
  induction a as [|x a IH]; [done|].
  change (String x ((a +:+ b) +:+ c) = String x (a +:+ (b +:+ c))). by rewrite IH.
Qed.

Lemma data_url_payload (s mime payload : string) :
  data_url_formatted s mime payload ->
  after_first "," s = Some payload /\ str_split "," s !! 1%nat = Some payload.
Proof.
  intros (-> & Hmime & Hpayload).
  assert (Hbefore : str_mem "," ("data:" +:+ mime +:+ ";base64") = false).
  { simpl. clear Hpayload. induction mime as [|c mime IH]; simpl; [done|].
    simpl in Hmime. apply orb_false_elim in Hmime as [Hc Hm].
    rewrite Hc. simpl. by apply IH. }
  assert (Heq : "data:" +:+ mime +:+ ";base64," +:+ payload =
                ("data:" +:+ mime +:+ ";base64") +:+ String "," payload).
  { by rewrite !str_append_assoc. }
  rewrite Heq. split.
  - by apply after_first_at_first.
  - rewrite str_split_at_first by done. simpl.
    by rewrite (str_split_no_sep _ _ (base64_no_comma _ Hpayload)).
Qed.


(** ** The generative adapter and the request handler *)

Section HandlerFacts.

Variable b64decode : string -> outcome bytes.
Variable easyocr_readtext :
  list string -> string -> gmap string bytes -> outcome (list detection).
Variable generate_content :
  string -> generation_config -> string -> outcome generate_content_response.
Variable response_repr : generate_content_response -> string.

Local Abbreviation handler :=
  (index b64decode easyocr_readtext generate_content response_repr).
Local Abbreviation adapter :=
  (gemini_generate_response generate_content response_repr).
Local Abbreviation generated schema prompt :=
  (generate_content "gemini-1.5-flash" (config_of schema) prompt).

Lemma bind_return {A B : Type} (c : M A) (k : A -> M B) (w w' : world) (a : A) :
  c w = (Return a, w') -> m_bind c k w = k a w'.
Proof. intros Hc. unfold m_bind. by rewrite Hc. Qed.

Lemma bind_raise {A B : Type} (c : M A) (k : A -> M B) (w w' : world)
    (e : py_exception) :
  c w = (Raise e, w') -> m_bind c k w = (Raise e, w').
Proof. intros Hc. unfold m_bind. by rewrite Hc. Qed.

Lemma gemini_generate_response_run (prompt : string) (schema : base_model) (w : world) :
  adapter prompt schema w =
    (Return (first_part_text (generated schema prompt)),
     {| fs := fs w;
        trace := (trace w ++ [EvGenerateContent "gemini-1.5-flash" (config_of schema) prompt])
                 ++ [EvPrint (gemini_print_line response_repr (generated schema prompt))] |}).
Proof.
  unfold gemini_generate_response, try_except, m_bind, call_generate_content,
    print, emit, m_ret, config_of.
  destruct (generate_content _ _ _) as [[cands]|e]; simpl; [|done].
  destruct cands as [|[[parts]] cands]; simpl; [done|].
  unfold m_bind, getitem, m_ret. simpl.
  destruct parts as [|p parts]; simpl; done.
Qed.

(** The handler on a POST whose [image] is a string with a second
    comma-separated piece that decodes, once OCR has returned. *)
Lemma index_run (request : flask_request) (w : world) (m : gmap string json)
    (s payload : string) (data : bytes) (results : list detection) :
  method request = "POST" ->
  request_json request = JObj m ->
  m !! "image" = Some (JStr s) ->
  str_split "," s !! 1%nat = Some payload ->
  b64decode payload = Return data ->
  easyocr_readtext default_lang_list image_path (<[image_path := data]> (fs w)) =
    Return results ->
  let text := filter_and_join results default_confidence_threshold in
  let stored := <[image_path := data]> (fs w) in
  let seen := (trace w ++ [EvWrite image_path data])
              ++ [EvReadtext default_lang_list image_path] in
  handler request w =
    if str_truthy text then
      (Return (JsonResponse
                 (success_body text
                    (first_part_text (generated container_schema (prompt_of text))))
                 200),
       {| fs := delete image_path stored;
          trace := ((seen
                     ++ [EvGenerateContent "gemini-1.5-flash"
                           (config_of container_schema) (prompt_of text)])
                    ++ [EvPrint (gemini_print_line response_repr
                                   (generated container_schema (prompt_of text)))])
                   ++ [EvRemove image_path] |})
    else
      (Return (JsonResponse no_text_body 400), {| fs := stored; trace := seen |}).
Proof.
  intros Hmethod Hjson Himage Hsplit Hdecode Hocr text stored seen.
  pose proof (str_split_second_truthy _ _ _ Hsplit) as Htruthy.
  unfold index. rewrite Hmethod, Hjson.
  change (String.eqb "POST" "POST") with true. cbv iota.
  erewrite bind_return; [|unfold py_get, m_ret; rewrite Himage; reflexivity].
  simpl (default _ _). cbn [truthy]. rewrite Htruthy. cbn [negb].
  erewrite bind_return; [|reflexivity].
  erewrite bind_return; [|unfold getitem; rewrite Hsplit; reflexivity].
  erewrite bind_return;
    [|unfold call_b64decode, lift_outcome; rewrite Hdecode; reflexivity].
  erewrite bind_return; [|reflexivity].
  erewrite bind_return; [|by apply process_image_run].
  fold (filter_and_join results default_confidence_threshold). fold text.
  cbn [fs trace]. fold stored. fold seen.
  destruct (str_truthy text); cbn [negb]; [|done].
  erewrite bind_return; [|unfold lift_outcome; by rewrite listing_schema_built].
  erewrite bind_return; [|unfold lift_outcome; by rewrite container_schema_built].
  fold (prompt_of text).
  erewrite bind_return; [|apply gemini_generate_response_run].
  erewrite bind_return;
    [|unfold os_remove; cbn [fs trace]; subst stored;
      rewrite lookup_insert_eq; reflexivity].
  done.
Qed.

Lemma index_no_comma (request : flask_request) (w : world) (m : gmap string json)
    (s : string) :
  method request = "POST" ->
  request_json request = JObj m ->
  m !! "image" = Some (JStr s) ->
  str_truthy s = true ->
  str_mem "," s = false ->
  handler request w = (Raise (IndexError "list index out of range"), w).
Proof.
  intros Hmethod Hjson Himage Htruthy Hcomma.
  unfold index. rewrite Hmethod, Hjson.
  change (String.eqb "POST" "POST") with true. cbv iota.
  erewrite bind_return; [|unfold py_get, m_ret; rewrite Himage; reflexivity].
  simpl (default _ _). cbn [truthy]. rewrite Htruthy. cbn [negb].
  erewrite bind_return; [|reflexivity].
  erewrite bind_raise; [reflexivity|].
  by rewrite (str_split_no_sep _ _ Hcomma).
Qed.

(** C2: a POST whose JSON object has no [image] key, or has [image]
    null, is answered 400 with the body [{"error": "No image data
    provided"}]; the files on disk and the trace of effects are left as they
    were, so nothing is written. *)
Theorem missing_image_is_400_without_writes (request : flask_request) (w : world)
    (m : gmap string json) :
  method request = "POST" ->
  request_json request = JObj m ->
  m !! "image" = None \/ m !! "image" = Some JNull ->
  handler request w =
    (Return (JsonResponse (JObj {[ "error" := JStr "No image data provided" ]}) 400), w).
Proof.
  intros Hmethod Hjson Himage.
  unfold index. rewrite Hmethod, Hjson.
  change (String.eqb "POST" "POST") with true. cbv iota.
  erewrite bind_return; [|unfold py_get, m_ret; reflexivity].
  by destruct Himage as [-> | ->].
Qed.

(** C3: when no fragment reaches the threshold the extraction is the
    empty string, and whenever the extraction is the empty string the
    handler answers 400 with [{"error": "No text extracted from the
    image"}]; its only effects are the write of the image and the OCR
    read, so the generative adapter is not called. *)
Theorem empty_extraction_is_400_without_generation (request : flask_request)
    (w : world) (m : gmap string json) (s payload : string) (data : bytes)
    (results : list detection) :
  method request = "POST" ->
  request_json request = JObj m ->
  m !! "image" = Some (JStr s) ->
  str_split "," s !! 1%nat = Some payload ->
  b64decode payload = Return data ->
  easyocr_readtext default_lang_list image_path (<[image_path := data]> (fs w)) =
    Return results ->
  (Forall (fun d => float_ge (det_confidence d) default_confidence_threshold = false)
     results ->
   filter_and_join results default_confidence_threshold = EmptyString)
  /\ (filter_and_join results default_confidence_threshold = EmptyString ->
      handler request w =
        (Return (JsonResponse
                   (JObj {[ "error" := JStr "No text extracted from the image" ]}) 400),
         {| fs := <[image_path := data]> (fs w);
            trace := (trace w ++ [EvWrite image_path data])
                     ++ [EvReadtext default_lang_list image_path] |})).
Proof.
  intros Hmethod Hjson Himage Hsplit Hdecode Hocr. split.
  - intros Hbelow. unfold filter_and_join.
    replace (extracted_texts results default_confidence_threshold) with (@nil string);
      [done|].
    clear Hocr. induction Hbelow as [|[[box text] confidence] results Hd _ IH]; [done|].
    simpl. unfold det_confidence in Hd. simpl in Hd. by rewrite Hd.
  - intros Hempty.
    rewrite (index_run request w m s payload data results) by done.
    by rewrite Hempty.
Qed.

(** C4: once the generative step is reached, a generative call that
    raises, returns no candidate, or returns a first candidate without
    content parts still gives HTTP 200 with [gemini_response] null and
    [extracted_text] the OCR text; and whatever the generative call does,
    the status is 200. *)
Theorem generation_failure_is_200_with_null (request : flask_request)
    (w : world) (m : gmap string json) (s payload : string) (data : bytes)
    (results : list detection) :
  method request = "POST" ->
  request_json request = JObj m ->
  m !! "image" = Some (JStr s) ->
  str_split "," s !! 1%nat = Some payload ->
  b64decode payload = Return data ->
  easyocr_readtext default_lang_list image_path (<[image_path := data]> (fs w)) =
    Return results ->
  let text := filter_and_join results default_confidence_threshold in
  let o := generated container_schema (prompt_of text) in
  str_truthy text = true ->
  ((exists e, o = Raise e)
   \/ (exists r, o = Return r /\ candidates r = [])
   \/ (exists r first rest, o = Return r /\ candidates r = first :: rest
         /\ content_parts (candidate_content first) = []) ->
   fst (handler request w) =
     Return (JsonResponse
               (JObj (<[ "extracted_text" := JStr text ]>
                        {[ "gemini_response" := JNull ]})) 200))
  /\ (exists body, fst (handler request w) = Return (JsonResponse body 200)).
Proof.
  intros Hmethod Hjson Himage Hsplit Hdecode Hocr text o Htext.
  rewrite (index_run request w m s payload data results) by done.
  fold text. rewrite Htext. cbn [fst]. fold o. split; [|by eexists].
  intros Hfail. replace (first_part_text o) with (@None string); [done|].
  destruct Hfail as [[e ->] | [(r & -> & Hr) | (r & first & rest & -> & Hr & Hparts)]];
    simpl; [done | by rewrite Hr | by rewrite Hr, Hparts].
Qed.

(** C8: on the success path the stored image is deleted, after the
    generative call and as the last effect before the 200 response; on the
    path ending in 400 "No text extracted from the image" it is not
    deleted: the file still holds the uploaded bytes. *)
Theorem stored_image_deleted_only_on_success (request : flask_request)
    (w : world) (m : gmap string json) (s payload : string) (data : bytes)
    (results : list detection) :
  method request = "POST" ->
  request_json request = JObj m ->
  m !! "image" = Some (JStr s) ->
  str_split "," s !! 1%nat = Some payload ->
  b64decode payload = Return data ->
  easyocr_readtext default_lang_list image_path (<[image_path := data]> (fs w)) =
    Return results ->
  let text := filter_and_join results default_confidence_threshold in
  let out := handler request w in
  (str_truthy text = true ->
     (exists body, fst out = Return (JsonResponse body 200))
     /\ fs (snd out) !! image_path = None
     /\ (exists before printed,
           trace (snd out) =
             (before
              ++ [EvGenerateContent "gemini-1.5-flash" (config_of container_schema)
                    (prompt_of text);
                  EvPrint printed])
             ++ [EvRemove image_path]))
  /\ (str_truthy text = false ->
        fst out = Return (JsonResponse no_text_body 400)
        /\ fs (snd out) !! image_path = Some data
        /\ trace (snd out) =
             trace w ++ [EvWrite image_path data;
                         EvReadtext default_lang_list image_path]).
Proof.
  intros Hmethod Hjson Himage Hsplit Hdecode Hocr text out. subst out.
  rewrite (index_run request w m s payload data results) by done.
  fold text. split; intros ->; cbn [fst snd fs trace].
  - split; [by eexists|]. split; [by rewrite lookup_delete_eq|].
    eexists _, _. f_equal. symmetry. apply (app_assoc _ [_] [_]).
  - split; [done|]. split; [by rewrite lookup_insert_eq|].
    by rewrite <- app_assoc.
Qed.

(** C9: [gemini_generate_response] always returns: it gives the text of
    the first content part of the first candidate when the response has one,
    and [None] when the call raises, when there is no candidate and when the
    first candidate has no content part; the files on disk are untouched. *)
Theorem gemini_generate_response_never_raises (prompt : string)
    (schema : base_model) (w : world) :
  let o := generated schema prompt in
  let out := adapter prompt schema w in
  fst out = Return (first_part_text o)
  /\ fs (snd out) = fs w
  /\ (forall e, o = Raise e -> fst out = Return None)
  /\ (forall r, o = Return r -> candidates r = [] -> fst out = Return None)
  /\ (forall r first rest, o = Return r -> candidates r = first :: rest ->
        content_parts (candidate_content first) = [] -> fst out = Return None)
  /\ (forall r first rest p ps, o = Return r -> candidates r = first :: rest ->
        content_parts (candidate_content first) = p :: ps ->
        fst out = Return (Some (part_text p))).
Proof.
  intros o out. subst out. rewrite gemini_generate_response_run. cbn [fst snd fs].
  fold o. repeat split.
  - by intros e ->.
  - intros r -> Hr. simpl. by rewrite Hr.
  - intros r first rest -> Hr Hparts. simpl. by rewrite Hr, Hparts.
  - intros r first rest p ps -> Hr Hparts. simpl. by rewrite Hr, Hparts.
Qed.

Lemma index_decode_raises (request : flask_request) (w : world)
    (m : gmap string json) (s payload : string) (e : py_exception) :
  method request = "POST" ->
  request_json request = JObj m ->
  m !! "image" = Some (JStr s) ->
  str_split "," s !! 1%nat = Some payload ->
  b64decode payload = Raise e ->
  handler request w = (Raise e, w).
Proof.
  intros Hmethod Hjson Himage Hsplit Hdecode.
  pose proof (str_split_second_truthy _ _ _ Hsplit) as Htruthy.
  unfold index. rewrite Hmethod, Hjson.
  change (String.eqb "POST" "POST") with true. cbv iota.
  erewrite bind_return; [|unfold py_get, m_ret; rewrite Himage; reflexivity].
  simpl (default _ _). cbn [truthy]. rewrite Htruthy. cbn [negb].
  erewrite bind_return; [|reflexivity].
  erewrite bind_return; [|unfold getitem; rewrite Hsplit; reflexivity].
  erewrite bind_raise; [reflexivity|].
  unfold call_b64decode, lift_outcome. by rewrite Hdecode.
Qed.

Lemma index_ocr_raises (request : flask_request) (w : world)
    (m : gmap string json) (s payload : string) (data : bytes) (e : py_exception) :
  method request = "POST" ->
  request_json request = JObj m ->
  m !! "image" = Some (JStr s) ->
  str_split "," s !! 1%nat = Some payload ->
  b64decode payload = Return data ->
  easyocr_readtext default_lang_list image_path (<[image_path := data]> (fs w)) =
    Raise e ->
  handler request w =
    (Raise e, {| fs := <[image_path := data]> (fs w);
                 trace := (trace w ++ [EvWrite image_path data])
                          ++ [EvReadtext default_lang_list image_path] |}).
Proof.
  intros Hmethod Hjson Himage Hsplit Hdecode Hocr.
  pose proof (str_split_second_truthy _ _ _ Hsplit) as Htruthy.
  unfold index. rewrite Hmethod, Hjson.
  change (String.eqb "POST" "POST") with true. cbv iota.
  erewrite bind_return; [|unfold py_get, m_ret; rewrite Himage; reflexivity].
  simpl (default _ _). cbn [truthy]. rewrite Htruthy. cbn [negb].
  erewrite bind_return; [|reflexivity].
  erewrite bind_return; [|unfold getitem; rewrite Hsplit; reflexivity].
  erewrite bind_return;
    [|unfold call_b64decode, lift_outcome; rewrite Hdecode; reflexivity].
  erewrite bind_return; [|reflexivity].
  erewrite bind_raise; [reflexivity|].
  unfold process_image. erewrite bind_raise; [reflexivity|].
  unfold call_readtext. cbn [fs trace]. by rewrite Hocr.
Qed.

(** C10: some POST with a non-empty [image] string without a comma
    makes the handler raise IndexError at [data_url.split(',')[1]], with no
    response and no effect; this holds for every such string, and the second
    piece of the split exists exactly when the string holds a comma. *)
Theorem image_without_comma_raises_IndexError :
  (exists request w s,
     method request = "POST"
     /\ request_json request = JObj {[ "image" := JStr s ]}
     /\ str_truthy s = true /\ str_mem "," s = false
     /\ handler request w = (Raise (IndexError "list index out of range"), w))
  /\ (forall request w m s,
        method request = "POST" ->
        request_json request = JObj m ->
        m !! "image" = Some (JStr s) ->
        str_truthy s = true ->
        str_mem "," s = false ->
        handler request w = (Raise (IndexError "list index out of range"), w))
  /\ (forall s, is_Some (str_split "," s !! 1%nat) <-> str_mem "," s = true).
Proof.
  repeat split.
  - exists {| method := "POST"; request_json := JObj {[ "image" := JStr "abc" ]} |},
      {| fs := ∅; trace := [] |}, "abc".
    split; [done|]. split; [done|]. split; [done|]. split; [done|].
    by apply (index_no_comma _ _ {[ "image" := JStr "abc" ]} "abc").
  - intros request w m s. apply index_no_comma.
  - intros [piece Hpiece]. destruct (str_mem "," s) eqn:Hmem; [done|].
    by rewrite (str_split_no_sep _ _ Hmem) in Hpiece.
  - intros Hmem. destruct (str_split_second_of_mem _ _ Hmem) as [piece Hpiece].
    by exists piece.
Qed.

End HandlerFacts.

(** C7: for an [image] string of the form [data:<mime>;base64,<payload>]
    the piece the handler decodes is everything after the first comma, the
    payload.  When it decodes to bytes, the first effect of the request is
    the write of exactly these bytes to the stored-image file and no later
    effect writes; the file holds these bytes when the OCR engine reads the
    disk (the handler depends on the engine only through what it returns for
    the disk on which the stored image is these bytes), and at the end of
    the request it still holds them unless the request itself removed the
    file as its last effect.  When decoding raises, the handler raises the
    same exception and writes nothing. *)
Theorem ingress_decodes_after_first_comma
    (b64decode : string -> outcome bytes)
    (easyocr_readtext :
       list string -> string -> gmap string bytes -> outcome (list detection))
    (generate_content :
       string -> generation_config -> string -> outcome generate_content_response)
    (response_repr : generate_content_response -> string)
    (request : flask_request) (w : world)
    (m : gmap string json) (s mime payload : string) :
  method request = "POST" ->
  request_json request = JObj m ->
  m !! "image" = Some (JStr s) ->
  data_url_formatted s mime payload ->
  let out := index b64decode easyocr_readtext generate_content response_repr
               request w in
  after_first "," s = Some payload
  /\ str_split "," s !! 1%nat = Some payload
  /\ (forall data, b64decode payload = Return data ->
        (exists later,
           trace (snd out) = trace w ++ EvWrite image_path data :: later
           /\ forallb (fun ev => negb (is_write ev)) later = true)
        /\ (fs (snd out) = <[image_path := data]> (fs w)
            \/ (fs (snd out) = delete image_path (fs w)
                /\ exists before, trace (snd out) = before ++ [EvRemove image_path]))
        /\ (forall readtext',
              readtext' default_lang_list image_path (<[image_path := data]> (fs w)) =
                easyocr_readtext default_lang_list image_path
                  (<[image_path := data]> (fs w)) ->
              index b64decode readtext' generate_content response_repr request w = out)
        /\ (forall e,
              easyocr_readtext default_lang_list image_path
                (<[image_path := data]> (fs w)) = Raise e ->
              out = (Raise e,
                     {| fs := <[image_path := data]> (fs w);
                        trace := (trace w ++ [EvWrite image_path data])
                                 ++ [EvReadtext default_lang_list image_path] |})))
  /\ (forall e, b64decode payload = Raise e -> out = (Raise e, w)).
Proof.
  intros Hmethod Hjson Himage Hurl out. subst out.
  destruct (data_url_payload _ _ _ Hurl) as [Hafter Hsplit].
  split; [done|]. split; [done|]. split.
  - intros data Hdecode.
    destruct (easyocr_readtext default_lang_list image_path
                (<[image_path := data]> (fs w))) as [results|e] eqn:Hocr.
    + rewrite (index_run _ _ _ _ request w m s payload data results) by done.
      split; [|split; [|split]].
      * destruct (str_truthy _); cbn [snd trace]; eexists;
          (split; [rewrite <- !app_assoc; reflexivity | reflexivity]).
      * destruct (str_truthy _); cbn [snd fs trace]; [right | by left].
        split; [by rewrite delete_insert_eq | by eexists].
      * intros readtext' Hsame.
        by rewrite (index_run _ _ _ _ request w m s payload data results).
      * intros e [=].
    + rewrite (index_ocr_raises _ _ _ _ request w m s payload data e) by done.
      cbn [snd fs trace]. split; [|split; [|split]].
      * eexists. split; [rewrite <- !app_assoc; reflexivity | reflexivity].
      * by left.
      * intros readtext' Hsame.
        by rewrite (index_ocr_raises _ _ _ _ request w m s payload data e).
      * by intros e' [= <-].
  - intros e Hdecode. by apply (index_decode_raises _ _ _ _ request w m s payload e).
Qed.

(** ** Worked examples *)

(** Scenario A of the specification: the OCR text above the threshold is
    sent on with the preamble and comes back with status 200; the stored
    image is gone afterwards. *)
Example scenario_A :
  index stub_b64decode (stub_readtext label_results)
    (stub_generate (Return listing_response)) stub_repr post_label empty_world =
    (Return (JsonResponse
               (success_body "NPK Fertilizer 19:19:19" (Some "{listings: []}")) 200),
     {| fs := delete image_path {[ image_path := label_bytes ]};
        trace := [EvWrite image_path label_bytes;
                  EvReadtext default_lang_list image_path;
                  EvGenerateContent "gemini-1.5-flash" (config_of container_schema)
                    (prompt_of "NPK Fertilizer 19:19:19");
                  EvPrint "response";
                  EvRemove image_path] |}).
Proof. vm_compute. reflexivity. Qed.

(** Scenario B: [{"image": null}]. *)
Example scenario_B :
  fst (index stub_b64decode (stub_readtext label_results)
         (stub_generate (Return listing_response)) stub_repr
         {| method := "POST"; request_json := JObj {[ "image" := JNull ]} |}
         empty_world) =
    Return (JsonResponse no_image_body 400).
Proof. vm_compute. reflexivity. Qed.

Example image_path_value : image_path = "uploaded_images/captured_image.jpg".
Proof. reflexivity. Qed.

Example split_two_commas : str_split "," "a,b,c" = ["a"; "b"; "c"].
Proof. reflexivity. Qed.

(** Outside the data-URL format: with a second comma the decoded piece
    stops there. *)
Example second_piece_stops_at_next_comma :
  str_split "," "data:a;base64,QUJD,REVG" !! 1%nat = Some "QUJD"
  /\ after_first "," "data:a;base64,QUJD,REVG" = Some "QUJD,REVG".
Proof. split; reflexivity. Qed.

(** A JSON body that is not an object has no [get] method. *)
Example array_body_raises :
  index stub_b64decode (stub_readtext label_results)
    (stub_generate (Return listing_response)) stub_repr
    {| method := "POST"; request_json := JArr [] |} empty_world =
    (Raise (AttributeError "'list' object has no attribute 'get'"), empty_world).
Proof. reflexivity. Qed.

(** A GET renders the page. *)
Example get_renders_template :
  index stub_b64decode (stub_readtext label_results)
    (stub_generate (Return listing_response)) stub_repr
    {| method := "GET"; request_json := JNull |} empty_world =
    (Return (TemplateResponse "index.html" 200), empty_world).
Proof. reflexivity. Qed.

(** ** The theorems at the worked examples *)

Lemma process_image_keeps_confident_fragments_witness :
  fst (process_image (stub_readtext label_results) image_path default_lang_list
         float_0_7 {| fs := {[ image_path := label_bytes ]}; trace := [] |}) =
    Return (String.concat " " (map det_text (retained float_0_7 label_results)))
  /\ String.concat " " (map det_text (retained float_0_7 label_results)) =
       "NPK Fertilizer 19:19:19".
Proof.
  split; [|reflexivity].
  apply (process_image_keeps_confident_fragments (stub_readtext label_results)
           image_path default_lang_list float_0_7
           {| fs := {[ image_path := label_bytes ]}; trace := [] |} label_results).
  reflexivity.
Defined.

Lemma raising_threshold_never_adds_witness :
  float_le (Prim2SF 0.5%float) float_0_7 = true
  /\ extracted_texts label_results float_0_7
       `sublist_of` extracted_texts label_results (Prim2SF 0.5%float).
Proof.
  split; [reflexivity|].
  apply (raising_threshold_never_adds label_results (Prim2SF 0.5%float) float_0_7).
  reflexivity.
Defined.

Lemma schema_builder_one_required_str_per_name_witness :
  exists listing,
    create_dynamic_listing_model pydantic fields = Return listing
    /\ (forall name, In name fields ->
          List.filter (fun f => String.eqb (fst f) name) (model_fields_of listing) =
            [(name, FieldInfo TStr true)])
    /\ (forall f, In f (model_fields_of listing) ->
          In (fst f) fields /\ snd f = FieldInfo TStr true)
    /\ (List.NoDup fields -> map fst (model_fields_of listing) = fields)
    /\ create_listings_container_model pydantic listing =
         Return (BaseModel "DynamicListingsContainer"
                   [("listings", FieldInfo (TList (TModel listing)) true)]).
Proof.
  apply (schema_builder_one_required_str_per_name pydantic fields).
  - discriminate.
  - repeat constructor.
  - reflexivity.
Defined.

Lemma missing_image_is_400_without_writes_witness :
  index stub_b64decode (stub_readtext label_results)
    (stub_generate (Return listing_response)) stub_repr post_nothing empty_world =
    (Return (JsonResponse (JObj {[ "error" := JStr "No image data provided" ]}) 400),
     empty_world).
Proof.
  apply (missing_image_is_400_without_writes stub_b64decode (stub_readtext label_results)
           (stub_generate (Return listing_response)) stub_repr post_nothing empty_world
           {[ "name" := JStr "label" ]}).
  - reflexivity.
  - reflexivity.
  - left. reflexivity.
Defined.

Lemma empty_extraction_is_400_without_generation_witness :
  filter_and_join blurred_results default_confidence_threshold = EmptyString
  /\ index stub_b64decode (stub_readtext blurred_results)
       (stub_generate (Return listing_response)) stub_repr post_label empty_world =
       (Return (JsonResponse
                  (JObj {[ "error" := JStr "No text extracted from the image" ]}) 400),
        {| fs := <[image_path := label_bytes]> (fs empty_world);
           trace := (trace empty_world ++ [EvWrite image_path label_bytes])
                    ++ [EvReadtext default_lang_list image_path] |}).
Proof.
  split; [reflexivity|].
  apply (empty_extraction_is_400_without_generation stub_b64decode
           (stub_readtext blurred_results) (stub_generate (Return listing_response))
           stub_repr post_label empty_world {[ "image" := JStr label_data_url ]}
           label_data_url label_payload label_bytes blurred_results);
    reflexivity.
Defined.

Lemma generation_failure_is_200_with_null_witness :
  fst (index stub_b64decode (stub_readtext label_results)
         (stub_generate (Raise quota_error)) stub_repr post_label empty_world) =
    Return (JsonResponse
              (JObj (<[ "extracted_text" := JStr "NPK Fertilizer 19:19:19" ]>
                       {[ "gemini_response" := JNull ]})) 200).
Proof.
  apply (generation_failure_is_200_with_null stub_b64decode
           (stub_readtext label_results) (stub_generate (Raise quota_error))
           stub_repr post_label empty_world {[ "image" := JStr label_data_url ]}
           label_data_url label_payload label_bytes label_results);
    try reflexivity.
  left. exists quota_error. reflexivity.
Defined.

Lemma ingress_decodes_after_first_comma_witness :
  data_url_formatted label_data_url "image/jpeg" label_payload
  /\ after_first "," label_data_url = Some label_payload
  /\ (fs (snd (index stub_b64decode (stub_readtext blurred_results)
                 (stub_generate (Return listing_response)) stub_repr post_label
                 empty_world)) = <[image_path := label_bytes]> (fs empty_world)
      \/ (fs (snd (index stub_b64decode (stub_readtext blurred_results)
                     (stub_generate (Return listing_response)) stub_repr post_label
                     empty_world)) = delete image_path (fs empty_world)
          /\ exists before,
               trace (snd (index stub_b64decode (stub_readtext blurred_results)
                             (stub_generate (Return listing_response)) stub_repr
                             post_label empty_world)) =
                 before ++ [EvRemove image_path])).
Proof.
  assert (Hurl : data_url_formatted label_data_url "image/jpeg" label_payload).
  { repeat split. }
  destruct (ingress_decodes_after_first_comma stub_b64decode
              (stub_readtext blurred_results) (stub_generate (Return listing_response))
              stub_repr post_label empty_world {[ "image" := JStr label_data_url ]}
              label_data_url "image/jpeg" label_payload
              eq_refl eq_refl eq_refl Hurl)
    as (Hafter & _ & Hdata & _).
  destruct (Hdata label_bytes eq_refl) as (_ & Hdisk & _).
  split; [exact Hurl|]. split; [exact Hafter | exact Hdisk].
Defined.

Lemma stored_image_deleted_only_on_success_witness :
  fs (snd (index stub_b64decode (stub_readtext label_results)
             (stub_generate (Return listing_response)) stub_repr post_label
             empty_world)) !! image_path = None
  /\ fs (snd (index stub_b64decode (stub_readtext blurred_results)
                (stub_generate (Return listing_response)) stub_repr post_label
                empty_world)) !! image_path = Some label_bytes.
Proof.
  split.
  - apply (stored_image_deleted_only_on_success stub_b64decode
             (stub_readtext label_results) (stub_generate (Return listing_response))
             stub_repr post_label empty_world {[ "image" := JStr label_data_url ]}
             label_data_url label_payload label_bytes label_results);
      reflexivity.
  - apply (stored_image_deleted_only_on_success stub_b64decode
             (stub_readtext blurred_results) (stub_generate (Return listing_response))
             stub_repr post_label empty_world {[ "image" := JStr label_data_url ]}
             label_data_url label_payload label_bytes blurred_results);
      reflexivity.
Defined.

Lemma gemini_generate_response_never_raises_witness :
  fst (gemini_generate_response (stub_generate (Raise quota_error)) stub_repr
         (prompt_of "NPK") container_schema empty_world) = Return None
  /\ fst (gemini_generate_response (stub_generate (Return listing_response)) stub_repr
            (prompt_of "NPK") container_schema empty_world) =
       Return (Some "{listings: []}").
Proof.
  split.
  - apply (gemini_generate_response_never_raises (stub_generate (Raise quota_error))
             stub_repr (prompt_of "NPK") container_schema empty_world).
  - apply (gemini_generate_response_never_raises
             (stub_generate (Return listing_response))
             stub_repr (prompt_of "NPK") container_schema empty_world).
Defined.

Lemma image_without_comma_raises_IndexError_witness :
  index stub_b64decode (stub_readtext label_results)
    (stub_generate (Return listing_response)) stub_repr
    {| method := "POST"; request_json := JObj {[ "image" := JStr "aGk=" ]} |}
    empty_world =
    (Raise (IndexError "list index out of range"), empty_world).
Proof.
  apply (image_without_comma_raises_IndexError stub_b64decode
           (stub_readtext label_results) (stub_generate (Return listing_response))
           stub_repr) with (m := {[ "image" := JStr "aGk=" ]}) (s := "aGk=");
    reflexivity.
Defined.

(** * Further properties of the handler *)

Section HandlerPaths.

Variable b64decode : string -> outcome bytes.
Variable easyocr_readtext :
  list string -> string -> gmap string bytes -> outcome (list detection).
Variable generate_content :
  string -> generation_config -> string -> outcome generate_content_response.
Variable response_repr : generate_content_response -> string.

Local Abbreviation handler :=
  (index b64decode easyocr_readtext generate_content response_repr).

(** Every path through [index]: unfold the handler and the functions it
    calls, and split on each test, lookup and collaborator outcome. *)
Ltac index_paths :=
  unfold index, gemini_generate_response, process_image, try_except, m_bind,
    py_get, py_split, getitem, call_b64decode, call_readtext,
    call_generate_content, lift_outcome, write_file, os_remove, print, emit,
    m_ret, m_raise;
  repeat (case_match; simplify_eq/=).

Ltac stored_lookup :=
  repeat match goal with
  | H : <[?p := _]> _ !! ?p = None |- _ => rewrite lookup_insert_eq in H; discriminate H
  end.

(** X1: whenever [index] returns a response it is the rendered page with
    status 200 (exactly for methods other than POST), one of the two 400
    error bodies, or status 200 with a non-empty extracted text. *)
Theorem index_responses (request : flask_request) (w : world)
    (response : flask_response) :
  fst (handler request w) = Return response ->
  (method request <> "POST" /\ response = TemplateResponse "index.html" 200)
  \/ (method request = "POST"
      /\ (response = JsonResponse no_image_body 400
          \/ response = JsonResponse no_text_body 400
          \/ exists text generated,
               str_truthy text = true
               /\ response = JsonResponse (success_body text generated) 200)).
Proof.
  index_paths; intros Hout; simplify_eq/=;
    try match goal with
    | H : String.eqb _ _ = true |- _ => apply String.eqb_eq in H
    | H : String.eqb _ _ = false |- _ => apply String.eqb_neq in H
    end;
    try (left; by split);
    right; (split; [done|]);
    try (left; reflexivity);
    try (right; left; reflexivity);
    right; right; eexists;
    first [exists None; split; [|reflexivity]
          |eexists (Some _); split; [|reflexivity]];
    match goal with H : negb ?b = false |- ?b = true => by destruct b end.
Qed.

(** X2: whatever the request and the collaborators do, [index] leaves
    every file other than the stored image as it was. *)
Theorem index_touches_only_stored_image (request : flask_request) (w : world)
    (path : string) :
  path <> image_path ->
  fs (snd (handler request w)) !! path = fs w !! path.
Proof.
  intros Hpath. index_paths;
    rewrite ?lookup_delete_ne, ?lookup_insert_ne by done; done.
Qed.

(** X3: the effects of one request are none at all (disk unchanged), or
    the write of the image followed by one OCR read (image left on disk),
    or these two followed by one generative call, one print and the removal
    of the image (image gone): never a second write, OCR read or generative
    call. *)
Theorem index_effects (request : flask_request) (w : world) :
  let out := handler request w in
  (trace (snd out) = trace w /\ fs (snd out) = fs w)
  \/ (exists data,
        trace (snd out) =
          trace w ++ [EvWrite image_path data; EvReadtext default_lang_list image_path]
        /\ fs (snd out) = <[image_path := data]> (fs w))
  \/ (exists data text printed,
        trace (snd out) =
          trace w ++ [EvWrite image_path data;
                      EvReadtext default_lang_list image_path;
                      EvGenerateContent "gemini-1.5-flash" (config_of container_schema)
                        (prompt_of text);
                      EvPrint printed;
                      EvRemove image_path]
        /\ fs (snd out) = delete image_path (fs w)).
Proof.
  cbv zeta. index_paths; stored_lookup;
    try (left; by split);
    try (right; left; eexists; split; [by rewrite <- !app_assoc | done]);
    right; right; eexists _, _, _;
    (split; [by rewrite <- !app_assoc | by rewrite delete_insert_eq]).
Qed.

(** X4: a POST whose [image] value is false in Python's sense (the
    empty string, zero, false, an empty list or object, as well as null or
    a missing key) is answered 400 "No image data provided" with no
    effect. *)
Theorem falsy_image_is_400 (request : flask_request) (w : world)
    (m : gmap string json) :
  method request = "POST" ->
  request_json request = JObj m ->
  truthy (default JNull (m !! "image")) = false ->
  handler request w = (Return (JsonResponse no_image_body 400), w).
Proof.
  intros Hmethod Hjson Hfalsy.
  unfold index. rewrite Hmethod, Hjson.
  change (String.eqb "POST" "POST") with true. cbv iota.
  erewrite bind_return; [|unfold py_get, m_ret; reflexivity].
  by rewrite Hfalsy.
Qed.

(** X5: a POST whose body is not a JSON object raises AttributeError at
    [request.json.get], and one whose [image] is true in Python's sense but
    not a string (a number, true, a non-empty list or object) raises
    AttributeError at [data_url.split]; neither has any effect. *)
Theorem non_object_or_non_string_raises_AttributeError (request : flask_request)
    (w : world) :
  method request = "POST" ->
  ((forall m, request_json request <> JObj m) ->
   handler request w =
     (Raise (AttributeError
               ("'" +:+ type_name (request_json request)
                +:+ "' object has no attribute 'get'")), w))
  /\ (forall m v,
        request_json request = JObj m ->
        m !! "image" = Some v ->
        truthy v = true ->
        (forall s, v <> JStr s) ->
        handler request w =
          (Raise (AttributeError
                    ("'" +:+ type_name v +:+ "' object has no attribute 'split'")), w)).
Proof.
  intros Hmethod. split.
  - intros Hbody. unfold index. rewrite Hmethod.
    change (String.eqb "POST" "POST") with true. cbv iota.
    erewrite bind_raise; [reflexivity|].
    destruct (request_json request); try reflexivity. by destruct (Hbody m).
  - intros m v Hjson Himage Htruthy Hstr. unfold index. rewrite Hmethod, Hjson.
    change (String.eqb "POST" "POST") with true. cbv iota.
    erewrite bind_return; [|unfold py_get, m_ret; rewrite Himage; reflexivity].
    simpl (default _ _). rewrite Htruthy. cbn [negb].
    erewrite bind_raise; [reflexivity|].
    destruct v; try reflexivity. by destruct (Hstr s).
Qed.

(** X6: when the second comma-separated piece of the [image] string
    does not decode, the exception of [b64decode] leaves the handler
    uncaught: no response is produced, nothing is written and no
    collaborator is called. *)
Theorem decode_error_propagates (request : flask_request) (w : world)
    (m : gmap string json) (s payload : string) (e : py_exception) :
  method request = "POST" ->
  request_json request = JObj m ->
  m !! "image" = Some (JStr s) ->
  str_split "," s !! 1%nat = Some payload ->
  b64decode payload = Raise e ->
  handler request w = (Raise e, w).
Proof. apply index_decode_raises. Qed.

(** X7: when OCR raises, the exception leaves the handler uncaught
    after the image was written: the stored image stays on disk with the
    uploaded bytes, the generative adapter is not called and nothing is
    removed. *)
Theorem ocr_error_leaves_stored_image (request : flask_request) (w : world)
    (m : gmap string json) (s payload : string) (data : bytes) (e : py_exception) :
  method request = "POST" ->
  request_json request = JObj m ->
  m !! "image" = Some (JStr s) ->
  str_split "," s !! 1%nat = Some payload ->
  b64decode payload = Return data ->
  easyocr_readtext default_lang_list image_path (<[image_path := data]> (fs w)) =
    Raise e ->
  let out := handler request w in
  fst out = Raise e
  /\ fs (snd out) !! image_path = Some data
  /\ trace (snd out) =
       trace w ++ [EvWrite image_path data; EvReadtext default_lang_list image_path].
Proof.
  intros Hmethod Hjson Himage Hsplit Hdecode Hocr out. subst out.
  rewrite (index_ocr_raises _ _ _ _ request w m s payload data e) by done.
  cbn [fst snd fs trace]. split; [done|]. split; [by rewrite lookup_insert_eq|].
  by rewrite <- app_assoc.
Qed.

Lemma index_depends_on_piece (r1 r2 : flask_request) (w : world)
    (m1 m2 : gmap string json) (s1 s2 : string) :
  method r1 = "POST" -> method r2 = "POST" ->
  request_json r1 = JObj m1 -> request_json r2 = JObj m2 ->
  m1 !! "image" = Some (JStr s1) -> m2 !! "image" = Some (JStr s2) ->
  str_truthy s1 = true -> str_truthy s2 = true ->
  str_split "," s1 !! 1%nat = str_split "," s2 !! 1%nat ->
  handler r1 w = handler r2 w.
Proof.
  intros Hm1 Hm2 Hj1 Hj2 Hi1 Hi2 Ht1 Ht2 Hpiece.
  unfold index. rewrite Hm1, Hm2, Hj1, Hj2.
  change (String.eqb "POST" "POST") with true. cbv iota.
  erewrite bind_return; [|unfold py_get, m_ret; rewrite Hi1; reflexivity].
  simpl (default _ _). cbn [truthy]. rewrite Ht1. cbn [negb].
  erewrite bind_return; [|reflexivity].
  symmetry.
  erewrite bind_return; [|unfold py_get, m_ret; rewrite Hi2; reflexivity].
  simpl (default _ _). cbn [truthy]. rewrite Ht2. cbn [negb].
  erewrite bind_return; [|reflexivity].
  unfold m_bind at 1 6. unfold getitem. by rewrite Hpiece.
Qed.

(** X8: only the text between the first and the second comma of the
    [image] string is decoded: two POSTs whose images agree up to the second
    comma are handled identically, whatever follows it. *)
Theorem text_after_second_comma_is_ignored (r1 r2 : flask_request) (w : world)
    (m1 m2 : gmap string json) (before mid rest : string) :
  method r1 = "POST" -> method r2 = "POST" ->
  request_json r1 = JObj m1 -> request_json r2 = JObj m2 ->
  str_mem "," before = false ->
  str_mem "," mid = false ->
  m1 !! "image" = Some (JStr (before +:+ String "," (mid +:+ String "," rest))) ->
  m2 !! "image" = Some (JStr (before +:+ String "," mid)) ->
  str_split "," (before +:+ String "," (mid +:+ String "," rest)) !! 1%nat = Some mid
  /\ handler r1 w = handler r2 w.
Proof.
  intros Hm1 Hm2 Hj1 Hj2 Hbefore Hmid Hi1 Hi2.
  assert (Hp1 : str_split "," (before +:+ String "," (mid +:+ String "," rest))
                !! 1%nat = Some mid).
  { rewrite str_split_at_first by done. by rewrite str_split_at_first. }
  assert (Hp2 : str_split "," (before +:+ String "," mid) !! 1%nat = Some mid).
  { rewrite str_split_at_first by done. by rewrite str_split_no_sep. }
  split; [done|].
  apply (index_depends_on_piece r1 r2 w m1 m2 _ _ Hm1 Hm2 Hj1 Hj2 Hi1 Hi2).
  - by apply (str_split_second_truthy "," _ mid).
  - by apply (str_split_second_truthy "," _ mid).
  - by rewrite Hp1, Hp2.
Qed.

(** X10: on the success path the handler calls the generative model
    exactly once, with the fixed preamble followed by the extracted text as
    prompt and the container schema in a JSON configuration; it answers 200
    with the extracted text and the first part's text, and leaves the disk
    without the stored image. *)
Theorem success_path (request : flask_request) (w : world)
    (m : gmap string json) (s payload : string) (data : bytes)
    (results : list detection) :
  method request = "POST" ->
  request_json request = JObj m ->
  m !! "image" = Some (JStr s) ->
  str_split "," s !! 1%nat = Some payload ->
  b64decode payload = Return data ->
  easyocr_readtext default_lang_list image_path (<[image_path := data]> (fs w)) =
    Return results ->
  let text := filter_and_join results default_confidence_threshold in
  let o := generate_content "gemini-1.5-flash" (config_of container_schema)
             (system_message +:+ text) in
  str_truthy text = true ->
  handler request w =
    (Return (JsonResponse
               (JObj (<[ "extracted_text" := JStr text ]>
                        {[ "gemini_response" := json_of_option (first_part_text o) ]}))
               200),
     {| fs := delete image_path (fs w);
        trace := trace w ++ [EvWrite image_path data;
                             EvReadtext default_lang_list image_path;
                             EvGenerateContent "gemini-1.5-flash"
                               (config_of container_schema) (system_message +:+ text);
                             EvPrint (gemini_print_line response_repr o);
                             EvRemove image_path] |}).
Proof.
  intros Hmethod Hjson Himage Hsplit Hdecode Hocr text o Htext.
  rewrite (index_run _ _ _ _ request w m s payload data results) by done.
  fold text. rewrite Htext. f_equal. f_equal.
  - by rewrite delete_insert_eq.
  - by rewrite <- !app_assoc.
Qed.

(** X11: a request that ends in 400 "No text extracted" leaves its image
    on disk, and the next request that succeeds overwrites and removes it:
    its response is the one it would give on the original disk, and the disk
    ends without the stored image. *)
Theorem leftover_image_is_cleaned_by_next_success (r1 r2 : flask_request)
    (w : world) (m1 m2 : gmap string json) (s1 s2 p1 p2 : string)
    (d1 d2 : bytes) (res1 res2 : list detection) :
  method r1 = "POST" -> request_json r1 = JObj m1 ->
  m1 !! "image" = Some (JStr s1) ->
  str_split "," s1 !! 1%nat = Some p1 ->
  b64decode p1 = Return d1 ->
  easyocr_readtext default_lang_list image_path (<[image_path := d1]> (fs w)) =
    Return res1 ->
  filter_and_join res1 default_confidence_threshold = EmptyString ->
  method r2 = "POST" -> request_json r2 = JObj m2 ->
  m2 !! "image" = Some (JStr s2) ->
  str_split "," s2 !! 1%nat = Some p2 ->
  b64decode p2 = Return d2 ->
  easyocr_readtext default_lang_list image_path (<[image_path := d2]> (fs w)) =
    Return res2 ->
  str_truthy (filter_and_join res2 default_confidence_threshold) = true ->
  let w1 := snd (handler r1 w) in
  fs w1 !! image_path = Some d1
  /\ fst (handler r2 w1) = fst (handler r2 w)
  /\ fs (snd (handler r2 w1)) = delete image_path (fs w).
Proof.
  intros Hm1 Hj1 Hi1 Hs1 Hd1 Ho1 Hempty Hm2 Hj2 Hi2 Hs2 Hd2 Ho2 Htext w1.
  subst w1. rewrite (index_run _ _ _ _ r1 w m1 s1 p1 d1 res1) by done.
  rewrite Hempty. cbn [str_truthy snd fs].
  split; [by rewrite lookup_insert_eq|].
  rewrite (index_run _ _ _ _ r2 w m2 s2 p2 d2 res2) by done.
  erewrite (index_run _ _ _ _ r2 _ m2 s2 p2 d2 res2);
    [|done|done|done|done|done|cbn [fs]; by rewrite insert_insert_eq].
  rewrite Htext. cbn [fst snd fs].
  split; [done|]. by rewrite insert_insert_eq, delete_insert_eq.
Qed.

(** X9: the response of [index] does not depend on what an earlier
    request left in the stored-image file: with any bytes there beforehand
    the handler returns or raises the same, and produces the same effects. *)
Theorem stale_stored_image_is_overwritten (request : flask_request) (w : world)
    (stale : bytes) :
  let w' := {| fs := <[image_path := stale]> (fs w); trace := trace w |} in
  fst (handler request w') = fst (handler request w)
  /\ trace (snd (handler request w')) = trace (snd (handler request w)).
Proof.
  cbv zeta. unfold index, gemini_generate_response, process_image, try_except,
    m_bind, py_get, py_split, getitem, call_b64decode, call_readtext,
    call_generate_content, lift_outcome, write_file, os_remove, print, emit,
    m_ret, m_raise.
  repeat (case_match; simplify_eq/=; rewrite ?insert_insert_eq in *;
          simplify_eq/=); stored_lookup; done.
Qed.

Lemma str_truthy_concat (sep x : string) (l : list string) :
  In x l -> str_truthy x = true -> str_truthy (String.concat sep l) = true.
Proof.
  induction l as [|x0 l IH]; simpl; [done|].
  intros Hin Hx. destruct l as [|x1 l].
  - by destruct Hin as [-> | []].
  - destruct Hin as [-> | Hin].
    + by destruct x.
    + specialize (IH Hin Hx). destruct x0 as [|c x0]; [|done].
      destruct sep as [|c sep]; [|done]. exact IH.
Qed.

(** X19: one fragment at or above the default threshold with a
    non-empty text is enough to reach the generative step: the request is
    then answered 200 with the extracted text, never 400 "No text
    extracted". *)
Theorem legible_fragment_reaches_generation (request : flask_request) (w : world)
    (m : gmap string json) (s payload : string) (data : bytes)
    (results : list detection) (d : detection) :
  method request = "POST" ->
  request_json request = JObj m ->
  m !! "image" = Some (JStr s) ->
  str_split "," s !! 1%nat = Some payload ->
  b64decode payload = Return data ->
  easyocr_readtext default_lang_list image_path (<[image_path := data]> (fs w)) =
    Return results ->
  In d results ->
  float_ge (det_confidence d) default_confidence_threshold = true ->
  str_truthy (det_text d) = true ->
  exists generated,
    fst (handler request w) =
      Return (JsonResponse
                (success_body (filter_and_join results default_confidence_threshold)
                   generated) 200).
Proof.
  intros Hmethod Hjson Himage Hsplit Hdecode Hocr Hd Hconf Htext.
  rewrite (index_run _ _ _ _ request w m s payload data results) by done.
  assert (Hlegible : str_truthy (filter_and_join results default_confidence_threshold)
                     = true).
  { unfold filter_and_join, str_join. apply (str_truthy_concat _ (det_text d)); [|done].
    rewrite extracted_texts_retained. apply in_map. unfold retained.
    apply List.filter_In. by split. }
  rewrite Hlegible. by eexists.
Qed.

End HandlerPaths.

(** * Further properties of extraction, splitting and the schema builder *)

(** X13: extraction works fragment by fragment: the texts kept from two
    result lists put end to end are the texts kept from each, put end to
    end, and never more than there are fragments. *)
Theorem extracted_texts_app (l1 l2 : list detection) (t : float) :
  extracted_texts (l1 ++ l2) t = extracted_texts l1 t ++ extracted_texts l2 t
  /\ length (extracted_texts l1 t) <= length l1.
Proof.
  split.
  - induction l1 as [|[[box text] confidence] l1 IH]; simpl; [done|].
    destruct (float_ge confidence t); simpl; by rewrite IH.
  - induction l1 as [|[[box text] confidence] l1 IH]; simpl; [done|].
    destruct (float_ge confidence t); simpl; lia.
Qed.

Lemma str_append_nonempty (a b : string) (c : ascii) : a +:+ String c b <> EmptyString.
Proof. destruct a; discriminate. Qed.

(** X14: the extracted text is empty exactly when no fragment is kept
    or when the single fragment kept has an empty text; as soon as two
    fragments are kept the text holds at least the joining space. *)
Theorem extraction_empty_iff (results : list detection) (t : float) :
  filter_and_join results t = EmptyString <->
  extracted_texts results t = [] \/ extracted_texts results t = [EmptyString].
Proof.
  unfold filter_and_join, str_join.
  destruct (extracted_texts results t) as [|x [|y l]]; simpl.
  - split; [by left | done].
  - split; [intros ->; by right | by intros [? | [= ->]]].
  - split.
    + intros H. by apply str_append_nonempty in H.
    + by intros [? | ?].
Qed.

(** X15: comparisons with NaN are false, so a NaN threshold keeps no
    fragment and a fragment with NaN confidence is kept at no threshold; at
    threshold minus infinity every fragment whose confidence is a number is
    kept. *)
Theorem extraction_at_extreme_floats (results : list detection) :
  extracted_texts results S754_nan = []
  /\ (forall t before d after,
        det_confidence d = S754_nan ->
        extracted_texts (before ++ d :: after) t = extracted_texts (before ++ after) t)
  /\ (Forall (fun d => det_confidence d <> S754_nan) results ->
      extracted_texts results (S754_infinity true) = map det_text results).
Proof.
  split; [|split].
  - induction results as [|[[box text] confidence] results IH]; simpl; [done|].
    replace (float_ge confidence S754_nan) with false; [done|].
    by destruct confidence.
  - intros t before [[box text] confidence] after Hnan.
    unfold det_confidence in Hnan. simpl in Hnan. subst confidence.
    induction before as [|[[box' text'] confidence'] before IH]; simpl.
    + replace (float_ge S754_nan t) with false; [done|]. by destruct t.
    + by rewrite IH.
  - intros Hnum. induction Hnum as [|[[box text] confidence] results Hd _ IH];
      simpl; [done|].
    unfold det_confidence in Hd. simpl in Hd.
    replace (float_ge confidence (S754_infinity true)) with true.
    + unfold det_text at 1. simpl. by rewrite IH.
    + destruct confidence as [| [|] | |]; done.
Qed.

Lemma str_split_nonempty (sep : ascii) (s : string) : str_split sep s <> [].
Proof.
  destruct s as [|c s]; simpl; [done|].
  destruct (Ascii.eqb c sep); [done|]. by destruct (str_split sep s).
Qed.

(** X16: splitting loses nothing: the pieces of [s.split(sep)] joined
    again by [sep] are [s], there is always at least one piece, and no piece
    holds the separator; so what the handler passes to [b64decode] never
    contains a comma. *)
Theorem str_split_join (sep : ascii) (s : string) :
  str_join (String sep EmptyString) (str_split sep s) = s
  /\ str_split sep s <> []
  /\ Forall (fun piece => str_mem sep piece = false) (str_split sep s).
Proof.
  split; [|split; [apply str_split_nonempty|]].
  - unfold str_join. induction s as [|c s IH]; simpl; [done|].
    pose proof (str_split_nonempty sep s) as Hne.
    destruct (Ascii.eqb_spec c sep) as [->|Hc].
    + destruct (str_split sep s) as [|p ps]; [done|].
      change (String.concat (String sep EmptyString) (EmptyString :: p :: ps))
        with (String sep (String.concat (String sep EmptyString) (p :: ps))).
      by rewrite IH.
    + destruct (str_split sep s) as [|p ps]; [done|].
      rewrite <- IH. by destruct ps.
  - induction s as [|c s IH]; simpl; [by repeat constructor|].
    destruct (Ascii.eqb c sep) eqn:Hc; [by constructor|].
    destruct (str_split sep s) as [|p ps]; simpl.
    + repeat constructor. simpl. by rewrite Hc.
    + inversion IH as [|? ? Hp Hps]; subst. constructor; [|done].
      simpl. by rewrite Hc, Hp.
Qed.

Lemma dict_setitem_same {V : Type} (d : list (string * V)) (k : string) (v : V) :
  Forall (fun kv => snd kv = v) d -> In k (map fst d) -> dict_setitem d k v = d.
Proof.
  induction d as [|[k0 v0] d IH]; simpl; intros Hd Hin; [done|].
  inversion Hd as [|? ? Hv Hd']; subst. simpl.
  destruct (String.eqb_spec k0 k) as [->|Hne]; [done|].
  f_equal. apply IH; [done|]. by destruct Hin.
Qed.

Lemma create_model_append (lib : pydantic_library) (name n : string)
    (kwargs : list (string * field_definition)) (v : field_definition) :
  kind_of lib n <> Refused ->
  forall m, create_model lib name kwargs = Return m ->
  create_model lib name (kwargs ++ [(n, v)]) =
    Return (BaseModel name
              (model_fields_of m
               ++ (if is_plain (kind_of lib n) then [field_of (n, v)] else []))).
Proof.
  intros Hn m. unfold create_model.
  rewrite existsb_app, List.filter_app, map_app. simpl.
  destruct (existsb _ kwargs); [done|]. intros [= <-]. simpl.
  destruct (kind_of lib n); simpl; done.
Qed.

(** X17: the record schema grows name by name, whatever the library's
    table of names: a name already given changes nothing when it is given
    again; after a schema was built, a new plain field name adds one
    required str field at the end, a new name that is no field changes
    nothing, and a name the library refuses makes the call raise; no name at
    all gives a schema without fields. *)
Theorem listing_model_name_by_name (lib : pydantic_library) (names : list string)
    (n : string) :
  (In n names ->
   create_dynamic_listing_model lib (names ++ [n]) =
     create_dynamic_listing_model lib names)
  /\ (forall m,
        ~ In n names ->
        create_dynamic_listing_model lib names = Return m ->
        (kind_of lib n = PlainField ->
         create_dynamic_listing_model lib (names ++ [n]) =
           Return (BaseModel "DynamicListingModel"
                     (model_fields_of m ++ [(n, FieldInfo TStr true)])))
        /\ (kind_of lib n = NotAField ->
            create_dynamic_listing_model lib (names ++ [n]) = Return m))
  /\ (kind_of lib n = Refused ->
      create_dynamic_listing_model lib (names ++ [n]) =
        Raise (refusal lib (listing_field_definitions (names ++ [n]))))
  /\ create_dynamic_listing_model lib [] = Return (BaseModel "DynamicListingModel" []).
Proof.
  assert (Hstep : listing_field_definitions (names ++ [n]) =
                  dict_setitem (listing_field_definitions names) n (TStr, Ellipsis)).
  { unfold listing_field_definitions. by rewrite fold_left_app. }
  destruct (listing_defs_invariant names []) as (Hin & _ & Hval & _).
  fold (listing_field_definitions names) in Hin, Hval. simpl in Hin.
  split; [|split; [|split; [|done]]].
  - intros Hn. unfold create_dynamic_listing_model. rewrite Hstep.
    rewrite dict_setitem_same; [done| |].
    + apply Hval. constructor.
    + apply Hin. by right.
  - intros m Hn Hm.
    assert (Hfresh : listing_field_definitions (names ++ [n]) =
                     listing_field_definitions names ++ [(n, (TStr, Ellipsis))]).
    { rewrite Hstep. apply dict_setitem_fresh. rewrite Hin. tauto. }
    unfold create_dynamic_listing_model in *. rewrite Hfresh.
    split; intros Hkind.
    + rewrite (create_model_append lib _ n _ _ ltac:(by rewrite Hkind) m Hm).
      by rewrite Hkind.
    + rewrite (create_model_append lib _ n _ _ ltac:(by rewrite Hkind) m Hm).
      rewrite Hkind. simpl. rewrite app_nil_r.
      destruct m as [mname mfields]. unfold create_model in Hm.
      destruct (existsb _ _); by simplify_eq.
  - intros Hkind. unfold create_dynamic_listing_model, create_model.
    replace (existsb _ (listing_field_definitions (names ++ [n]))) with true; [done|].
    symmetry. apply existsb_exists. exists (n, (TStr, Ellipsis)). simpl.
    split; [|by rewrite Hkind].
    destruct (listing_defs_invariant (names ++ [n]) []) as (Hin' & _ & Hval' & _).
    fold (listing_field_definitions (names ++ [n])) in Hin', Hval'. simpl in Hin'.
    assert (Hk : In n (map fst (listing_field_definitions (names ++ [n])))).
    { apply Hin'. right. apply in_or_app. right. by left. }
    apply in_map_iff in Hk as ([k v] & Hfst & Hkv). simpl in Hfst. subst k.
    specialize (Hval' (List.Forall_nil _)).
    rewrite List.Forall_forall in Hval'. specialize (Hval' _ Hkv). simpl in Hval'.
    by subst v.
Qed.

Section AdapterEffects.

Variable generate_content :
  string -> generation_config -> string -> outcome generate_content_response.
Variable response_repr : generate_content_response -> string.

(** X18: the generative adapter calls the hosted model exactly once,
    also when the call fails (no retry), with model name gemini-1.5-flash,
    JSON as response type and the given schema; it then prints one line, the
    response or "Error with Gemini API: " followed by the error message. *)
Theorem gemini_calls_model_once (prompt : string) (schema : base_model) (w : world) :
  let config := {| response_mime_type := "application/json";
                   response_schema := schema |} in
  trace (snd (gemini_generate_response generate_content response_repr prompt schema w)) =
    trace w
    ++ [EvGenerateContent "gemini-1.5-flash" config prompt;
        EvPrint match generate_content "gemini-1.5-flash" config prompt with
                | Return response => response_repr response
                | Raise e => "Error with Gemini API: " +:+ exc_str e
                end].
Proof.
  cbv zeta. rewrite gemini_generate_response_run. cbn [snd trace].
  by rewrite <- app_assoc.
Qed.

End AdapterEffects.

(** ** The further theorems at worked examples *)

Lemma index_responses_witness :
  method post_label = "POST"
  /\ (JsonResponse (success_body "NPK Fertilizer 19:19:19" (Some "{listings: []}")) 200
        = JsonResponse no_image_body 400
      \/ JsonResponse (success_body "NPK Fertilizer 19:19:19" (Some "{listings: []}")) 200
           = JsonResponse no_text_body 400
      \/ exists text generated,
           str_truthy text = true
           /\ JsonResponse (success_body "NPK Fertilizer 19:19:19"
                              (Some "{listings: []}")) 200
                = JsonResponse (success_body text generated) 200).
Proof.
  destruct (index_responses stub_b64decode (stub_readtext label_results)
              (stub_generate (Return listing_response)) stub_repr post_label
              empty_world
              (JsonResponse (success_body "NPK Fertilizer 19:19:19"
                               (Some "{listings: []}")) 200))
    as [[Hget _] | Hpost].
  - vm_compute. reflexivity.
  - exfalso. apply Hget. reflexivity.
  - exact Hpost.
Defined.

Lemma index_touches_only_stored_image_witness :
  fs (snd (index stub_b64decode (stub_readtext label_results)
             (stub_generate (Return listing_response)) stub_repr post_label
             other_file_world)) !! "notes.txt" = Some [Byte.x6e].
Proof.
  apply (index_touches_only_stored_image stub_b64decode (stub_readtext label_results)
           (stub_generate (Return listing_response)) stub_repr post_label
           other_file_world "notes.txt").
  discriminate.
Defined.

Lemma falsy_image_is_400_witness :
  index stub_b64decode (stub_readtext label_results)
    (stub_generate (Return listing_response)) stub_repr
    (post_image (JStr EmptyString)) empty_world =
    (Return (JsonResponse no_image_body 400), empty_world).
Proof.
  apply (falsy_image_is_400 stub_b64decode (stub_readtext label_results)
           (stub_generate (Return listing_response)) stub_repr
           (post_image (JStr EmptyString)) empty_world
           {[ "image" := JStr EmptyString ]});
    reflexivity.
Defined.

Lemma non_object_or_non_string_raises_AttributeError_witness :
  index stub_b64decode (stub_readtext label_results)
    (stub_generate (Return listing_response)) stub_repr
    (post_image (JInt 5)) empty_world =
    (Raise (AttributeError ("'" +:+ type_name (JInt 5)
                            +:+ "' object has no attribute 'split'")), empty_world).
Proof.
  apply (non_object_or_non_string_raises_AttributeError stub_b64decode
           (stub_readtext label_results) (stub_generate (Return listing_response))
           stub_repr (post_image (JInt 5)) empty_world)
    with (m := {[ "image" := JInt 5 ]}); try reflexivity.
  discriminate.
Defined.

Lemma decode_error_propagates_witness :
  index stub_b64decode (stub_readtext label_results)
    (stub_generate (Return listing_response)) stub_repr
    (post_image (JStr "data:image/jpeg;base64,a")) empty_world =
    (Raise (OtherException "binascii.Error" "Incorrect padding"), empty_world).
Proof.
  apply (decode_error_propagates stub_b64decode (stub_readtext label_results)
           (stub_generate (Return listing_response)) stub_repr
           (post_image (JStr "data:image/jpeg;base64,a")) empty_world
           {[ "image" := JStr "data:image/jpeg;base64,a" ]}
           "data:image/jpeg;base64,a" "a");
    reflexivity.
Defined.

Lemma ocr_error_leaves_stored_image_witness :
  fst (index stub_b64decode failing_readtext
         (stub_generate (Return listing_response)) stub_repr post_label empty_world) =
    Raise ocr_error
  /\ fs (snd (index stub_b64decode failing_readtext
                (stub_generate (Return listing_response)) stub_repr post_label
                empty_world)) !! image_path = Some label_bytes
  /\ trace (snd (index stub_b64decode failing_readtext
                   (stub_generate (Return listing_response)) stub_repr post_label
                   empty_world)) =
       trace empty_world
       ++ [EvWrite image_path label_bytes; EvReadtext default_lang_list image_path].
Proof.
  apply (ocr_error_leaves_stored_image stub_b64decode failing_readtext
           (stub_generate (Return listing_response)) stub_repr post_label empty_world
           {[ "image" := JStr label_data_url ]} label_data_url label_payload
           label_bytes ocr_error);
    reflexivity.
Defined.

Lemma text_after_second_comma_is_ignored_witness :
  index stub_b64decode (stub_readtext label_results)
    (stub_generate (Return listing_response)) stub_repr
    (post_image (JStr ("data:image/jpeg;base64" +:+ String "," ("aGk=" +:+ String "," "tail"))))
    empty_world =
  index stub_b64decode (stub_readtext label_results)
    (stub_generate (Return listing_response)) stub_repr
    (post_image (JStr ("data:image/jpeg;base64" +:+ String "," "aGk="))) empty_world.
Proof.
  apply (text_after_second_comma_is_ignored stub_b64decode (stub_readtext label_results)
           (stub_generate (Return listing_response)) stub_repr
           (post_image (JStr ("data:image/jpeg;base64"
                              +:+ String "," ("aGk=" +:+ String "," "tail"))))
           (post_image (JStr ("data:image/jpeg;base64" +:+ String "," "aGk=")))
           empty_world
           {[ "image" := JStr ("data:image/jpeg;base64"
                               +:+ String "," ("aGk=" +:+ String "," "tail")) ]}
           {[ "image" := JStr ("data:image/jpeg;base64" +:+ String "," "aGk=") ]}
           "data:image/jpeg;base64" "aGk=" "tail");
    reflexivity.
Defined.

Lemma success_path_witness :
  fs (snd (index stub_b64decode (stub_readtext label_results)
             (stub_generate (Return listing_response)) stub_repr post_label
             other_file_world)) = delete image_path (fs other_file_world).
Proof.
  rewrite (success_path stub_b64decode (stub_readtext label_results)
             (stub_generate (Return listing_response)) stub_repr post_label
             other_file_world {[ "image" := JStr label_data_url ]} label_data_url
             label_payload label_bytes label_results);
    reflexivity.
Defined.

Lemma leftover_image_is_cleaned_by_next_success_witness :
  fs (snd (index stub_b64decode2 content_readtext
             (stub_generate (Return listing_response)) stub_repr
             (post_image (JStr blank_data_url)) empty_world)) !! image_path =
    Some blank_bytes
  /\ fs (snd (index stub_b64decode2 content_readtext
                (stub_generate (Return listing_response)) stub_repr post_label
                (snd (index stub_b64decode2 content_readtext
                        (stub_generate (Return listing_response)) stub_repr
                        (post_image (JStr blank_data_url)) empty_world)))) =
       delete image_path (fs empty_world).
Proof.
  pose proof (leftover_image_is_cleaned_by_next_success stub_b64decode2
                content_readtext (stub_generate (Return listing_response)) stub_repr
                (post_image (JStr blank_data_url)) post_label empty_world
                {[ "image" := JStr blank_data_url ]}
                {[ "image" := JStr label_data_url ]}
                blank_data_url label_data_url blank_payload label_payload
                blank_bytes label_bytes blurred_results label_results
                eq_refl eq_refl eq_refl eq_refl eq_refl eq_refl eq_refl
                eq_refl eq_refl eq_refl eq_refl eq_refl eq_refl eq_refl)
    as (Hleft & _ & Hclean).
  split; [exact Hleft | exact Hclean].
Defined.

Lemma extraction_at_extreme_floats_witness :
  extracted_texts label_results (S754_infinity true) = map det_text label_results
  /\ extracted_texts ([] ++ ([], "blot", S754_nan) :: label_results) float_0_7 =
       extracted_texts ([] ++ label_results) float_0_7.
Proof.
  split.
  - apply (extraction_at_extreme_floats label_results).
    repeat constructor; discriminate.
  - apply (extraction_at_extreme_floats label_results). reflexivity.
Defined.

Lemma listing_model_name_by_name_witness :
  create_dynamic_listing_model pydantic (fields ++ ["Description"]) =
    create_dynamic_listing_model pydantic fields
  /\ create_dynamic_listing_model pydantic (fields ++ ["Dosage"]) =
       Return (BaseModel "DynamicListingModel"
                 (model_fields_of listing_schema ++ [("Dosage", FieldInfo TStr true)]))
  /\ create_dynamic_listing_model pydantic (fields ++ ["_hidden"]) =
       Return listing_schema
  /\ create_dynamic_listing_model pydantic (fields ++ ["__base__"]) =
       Raise (refusal pydantic (listing_field_definitions (fields ++ ["__base__"]))).
Proof.
  assert (Hfresh : forall n, String.prefix n "Product Name" = false ->
            n <> "Description" -> n <> "Usage Instructions" -> ~ In n fields).
  { intros n Hp Hd Hu [<- | [<- | [<- | []]]]; [discriminate Hp | done | done]. }
  split; [|split; [|split]].
  - destruct (listing_model_name_by_name pydantic fields "Description")
      as (Hagain & _).
    apply Hagain. right. left. reflexivity.
  - destruct (listing_model_name_by_name pydantic fields "Dosage")
      as (_ & Hnew & _).
    apply (Hnew listing_schema); [by apply Hfresh | reflexivity | reflexivity].
  - destruct (listing_model_name_by_name pydantic fields "_hidden")
      as (_ & Hnew & _).
    apply (Hnew listing_schema); [by apply Hfresh | reflexivity | reflexivity].
  - destruct (listing_model_name_by_name pydantic fields "__base__")
      as (_ & _ & Hrefused & _).
    apply Hrefused. reflexivity.
Defined.

Lemma legible_fragment_reaches_generation_witness :
  exists generated,
    fst (index stub_b64decode (stub_readtext label_results)
           (stub_generate (Raise quota_error)) stub_repr post_label empty_world) =
      Return (JsonResponse
                (success_body (filter_and_join label_results default_confidence_threshold)
                   generated) 200).
Proof.
  apply (legible_fragment_reaches_generation stub_b64decode
           (stub_readtext label_results) (stub_generate (Raise quota_error)) stub_repr
           post_label empty_world {[ "image" := JStr label_data_url ]} label_data_url
           label_payload label_bytes label_results
           ([], "19:19:19", Prim2SF 0.88%float));
    try reflexivity.
  right. right. left. reflexivity.
Defined.

